(** * ashishproperties.in : admin submissions view and lead-capture form

    A shallow embedding of two React components of the repository:

    - [Admin]   : [AdminAdvertisementSubmissionsManagement]
                  (the paginated, filterable table of advertisement
                  submissions, file [src/unnamed/part_000]);
    - [Banners] : [AdvertisementBanners]
                  (the lead-capture form, second document of
                  [src/client/components/MobileInstallationReminder.tsx]).

    Modelling conventions.

    - Every [useState] cell is a field of a record; a [setX v] call is a
      record update.
    - What a handler does to the outside (toasts, [console.error], [fetch]
      calls) is appended to logs kept next to the component state, so that
      "no request was made" and "exactly one notification" are statements
      about those logs.
    - An [async] function is split at its [await]: the part that runs
      synchronously when the function is called, and the continuation that
      runs when the awaited [fetch(..)]/[response.json()] settles.  The
      continuation is stored with the request in the list of requests in
      flight, together with the render whose closure it captured.
    - JavaScript numbers holding page counters are integers of [Z];
      strings are [string]; a string is truthy iff it is not empty. *)

From Stdlib Require Import ZArith List String Bool Lia DecimalString.
Import ListNotations.

Local Open Scope string_scope.
Local Open Scope list_scope.
Local Open Scope Z_scope.

(** ** JavaScript and toolkit primitives shared by both components *)

(** [if (s)] / [!s] on a string: the empty string is the only falsy one. *)
Definition truthy (s : string) : bool := negb (s =? "")%string.

(** [e || d] where [e] is a possibly absent string of a JSON body. *)
Definition orDefault (e : option string) (d : string) : string :=
  match e with
  | Some m => if truthy m then m else d
  | None => d
  end.

(** [n.toString()] on an integer-valued number. *)
Definition toString (n : Z) : string := NilZero.string_of_int (Z.to_int n).

(** The argument of [toast({ title, description, variant })]; [variant] is
    either omitted or ["destructive"]. *)
Inductive Variant := Default | Destructive.

Record Toast := mkToast {
  toast_title : string;
  toast_description : string;
  toast_variant : Variant
}.

(** How the awaited [fetch(..)] followed by [response.json()] settles, as far
    as the handlers can tell: either one of the two promises rejects or the
    body cannot be read (the [catch] branch), or a JSON body arrives whose
    [success] field is truthy ([JsonOk], with [data.data]) or falsy
    ([JsonFail], with [data.error], which may be absent).  The HTTP status
    is never inspected.  A body with a truthy [success] is taken to carry
    the [data] the store contract promises. *)
Inductive Outcome (A : Type) :=
| Rejected
| JsonFail (error : option string)
| JsonOk (data : A).
Arguments Rejected {A}.
Arguments JsonFail {A} error.
Arguments JsonOk {A} data.

Definition failed {A} (o : Outcome A) : bool :=
  match o with JsonOk _ => false | _ => true end.

(** Removing the [k]-th element of a list (a settled request leaves the list
    of requests in flight). *)
Fixpoint remove_nth {A} (k : nat) (l : list A) : list A :=
  match l, k with
  | [], _ => []
  | _ :: t, O => t
  | x :: t, S k' => x :: remove_nth k' t
  end.

(* ================================================================== *)
(** ** The admin view: [AdminAdvertisementSubmissionsManagement] *)
(* ================================================================== *)

Module Admin.

(** *** Data model *)

(** [status: "new" | "viewed" | "contacted"] *)
Inductive Status := New | Viewed | Contacted.

Definition Status_value (s : Status) : string :=
  match s with New => "new" | Viewed => "viewed" | Contacted => "contacted" end.

Record AdvertisementSubmission := mkSubmission {
  _id : string;
  bannerType : string;
  fullName : string;
  email : string;
  phone : string;
  projectName : string;
  location : string;
  projectType : string;
  budget : option string;
  description : string;
  status : Status;
  createdAt : string;
  updatedAt : string
}.

Record Statistics := mkStatistics {
  stat_total : Z;
  stat_new : Z;
  stat_viewed : Z;
  stat_contacted : Z;
  byBannerType : list (string * Z)
}.

(** The [useState] cells of the component, in declaration order. *)
Record State := mkState {
  submissions : list AdvertisementSubmission;
  statistics : option Statistics;
  loading : bool;
  showDetailsDialog : bool;
  selectedSubmission : option AdvertisementSubmission;
  deleting : bool;
  updating : bool;
  search : string;
  filterStatus : string;
  filterBannerType : string;
  currentPage : Z;
  totalPages : Z;
  total : Z
}.

(** The initial values passed to [useState]. *)
Definition initialState : State :=
  {| submissions := [];
     statistics := None;
     loading := true;
     showDetailsDialog := false;
     selectedSubmission := None;
     deleting := false;
     updating := false;
     search := "";
     filterStatus := "";
     filterBannerType := "";
     currentPage := 1;
     totalPages := 1;
     total := 0 |}.

(** [data.data] of a successful list response:
    [{ submissions, pagination: { total, pages } }]. *)
Record ListData := mkListData {
  data_submissions : list AdvertisementSubmission;
  pagination_total : Z;
  pagination_pages : Z
}.

(** The requests the component sends.  All of them carry the header
    [Authorization: Bearer ${token}]; [token] is a prop that never changes
    and is left out.  The query string of the list request is kept as the
    ordered list of the [URLSearchParams] entries. *)
Inductive Request :=
| GetSubmissions (params : list (string * string))
| GetStatistics
| PutStatus (submissionId : string) (newStatus : Status)
| DeleteSubmission (submissionId : string).

(** The continuation waiting for a request: which [async] function is
    suspended at its [await].  [handleStatusChange] and [handleDelete] call
    [fetchSubmissions] after the [await], so they keep the render whose
    closure they were created in. *)
Inductive Awaiting :=
| InFetchSubmissions
| InFetchStatistics
| InHandleStatusChange (render : State)
| InHandleDelete (render : State).

(** The component together with what it has done to the outside. *)
Record World := mkWorld {
  ui : State;
  toasts : list Toast;
  console : list string;
  sent : list Request;
  inFlight : list Awaiting
}.

(** *** State setters *)

Definition withState (f : State -> State) (w : World) : World :=
  {| ui := f (ui w); toasts := toasts w; console := console w;
     sent := sent w; inFlight := inFlight w |}.

Definition setSubmissions (v : list AdvertisementSubmission) : World -> World :=
  withState (fun s =>
    mkState v (statistics s) (loading s) (showDetailsDialog s)
      (selectedSubmission s) (deleting s) (updating s) (search s)
      (filterStatus s) (filterBannerType s) (currentPage s) (totalPages s)
      (total s)).

Definition setStatistics (v : option Statistics) : World -> World :=
  withState (fun s =>
    mkState (submissions s) v (loading s) (showDetailsDialog s)
      (selectedSubmission s) (deleting s) (updating s) (search s)
      (filterStatus s) (filterBannerType s) (currentPage s) (totalPages s)
      (total s)).

Definition setLoading (v : bool) : World -> World :=
  withState (fun s =>
    mkState (submissions s) (statistics s) v (showDetailsDialog s)
      (selectedSubmission s) (deleting s) (updating s) (search s)
      (filterStatus s) (filterBannerType s) (currentPage s) (totalPages s)
      (total s)).

Definition setShowDetailsDialog (v : bool) : World -> World :=
  withState (fun s =>
    mkState (submissions s) (statistics s) (loading s) v
      (selectedSubmission s) (deleting s) (updating s) (search s)
      (filterStatus s) (filterBannerType s) (currentPage s) (totalPages s)
      (total s)).

Definition setSelectedSubmission (v : option AdvertisementSubmission)
  : World -> World :=
  withState (fun s =>
    mkState (submissions s) (statistics s) (loading s) (showDetailsDialog s)
      v (deleting s) (updating s) (search s)
      (filterStatus s) (filterBannerType s) (currentPage s) (totalPages s)
      (total s)).

Definition setDeleting (v : bool) : World -> World :=
  withState (fun s =>
    mkState (submissions s) (statistics s) (loading s) (showDetailsDialog s)
      (selectedSubmission s) v (updating s) (search s)
      (filterStatus s) (filterBannerType s) (currentPage s) (totalPages s)
      (total s)).

Definition setUpdating (v : bool) : World -> World :=
  withState (fun s =>
    mkState (submissions s) (statistics s) (loading s) (showDetailsDialog s)
      (selectedSubmission s) (deleting s) v (search s)
      (filterStatus s) (filterBannerType s) (currentPage s) (totalPages s)
      (total s)).

Definition setSearch (v : string) : World -> World :=
  withState (fun s =>
    mkState (submissions s) (statistics s) (loading s) (showDetailsDialog s)
      (selectedSubmission s) (deleting s) (updating s) v
      (filterStatus s) (filterBannerType s) (currentPage s) (totalPages s)
      (total s)).

Definition setFilterStatus (v : string) : World -> World :=
  withState (fun s =>
    mkState (submissions s) (statistics s) (loading s) (showDetailsDialog s)
      (selectedSubmission s) (deleting s) (updating s) (search s)
      v (filterBannerType s) (currentPage s) (totalPages s)
      (total s)).

Definition setFilterBannerType (v : string) : World -> World :=
  withState (fun s =>
    mkState (submissions s) (statistics s) (loading s) (showDetailsDialog s)
      (selectedSubmission s) (deleting s) (updating s) (search s)
      (filterStatus s) v (currentPage s) (totalPages s)
      (total s)).

Definition setCurrentPage (v : Z) : World -> World :=
  withState (fun s =>
    mkState (submissions s) (statistics s) (loading s) (showDetailsDialog s)
      (selectedSubmission s) (deleting s) (updating s) (search s)
      (filterStatus s) (filterBannerType s) v (totalPages s)
      (total s)).

Definition setTotalPages (v : Z) : World -> World :=
  withState (fun s =>
    mkState (submissions s) (statistics s) (loading s) (showDetailsDialog s)
      (selectedSubmission s) (deleting s) (updating s) (search s)
      (filterStatus s) (filterBannerType s) (currentPage s) v
      (total s)).

Definition setTotal (v : Z) : World -> World :=
  withState (fun s =>
    mkState (submissions s) (statistics s) (loading s) (showDetailsDialog s)
      (selectedSubmission s) (deleting s) (updating s) (search s)
      (filterStatus s) (filterBannerType s) (currentPage s) (totalPages s)
      v).

(** *** Effects *)

Definition toast (t : Toast) (w : World) : World :=
  {| ui := ui w; toasts := toasts w ++ [t]; console := console w;
     sent := sent w; inFlight := inFlight w |}.

Definition console_error (msg : string) (w : World) : World :=
  {| ui := ui w; toasts := toasts w; console := console w ++ [msg];
     sent := sent w; inFlight := inFlight w |}.

(** [await fetch(..)]: the request leaves, the caller is suspended. *)
Definition fetch (r : Request) (k : Awaiting) (w : World) : World :=
  {| ui := ui w; toasts := toasts w; console := console w;
     sent := sent w ++ [r]; inFlight := inFlight w ++ [k] |}.

(** Statement sequencing: [a ;; b] runs [a], then [b]. *)
Definition andThen (a b : World -> World) : World -> World :=
  fun w => b (a w).
Notation "a ;; b" := (andThen a b) (at level 61, right associativity).

(** *** [fetchSubmissions] *)

(** The [URLSearchParams] built by [fetchSubmissions] from the values the
    render closed over. *)
Definition listParams (r : State) : list (string * string) :=
  [("page", toString (currentPage r)); ("limit", "10")]
  ++ (if truthy (search r) then [("search", search r)] else [])
  ++ (if truthy (filterStatus r) then [("status", filterStatus r)] else [])
  ++ (if truthy (filterBannerType r)
      then [("bannerType", filterBannerType r)] else []).

(** Up to the [await]: [setLoading(true)], build the parameters, [fetch]. *)
Definition fetchSubmissions (r : State) : World -> World :=
  setLoading true ;;
  fetch (GetSubmissions (listParams r)) InFetchSubmissions.

(** After the [await]: the [if (data.success)] / [else] / [catch] branches,
    then [finally]. *)
Definition fetchSubmissions_settled (o : Outcome ListData) : World -> World :=
  match o with
  | JsonOk d =>
      setSubmissions (data_submissions d) ;;
      setTotal (pagination_total d) ;;
      setTotalPages (pagination_pages d)
  | JsonFail e =>
      toast (mkToast "Error" (orDefault e "Failed to fetch submissions")
               Destructive)
  | Rejected =>
      console_error "Error fetching submissions:" ;;
      toast (mkToast "Error" "Failed to fetch submissions" Destructive)
  end ;;
  setLoading false.

(** *** [fetchStatistics] *)

Definition fetchStatistics : World -> World :=
  fetch GetStatistics InFetchStatistics.

Definition fetchStatistics_settled (o : Outcome Statistics) : World -> World :=
  match o with
  | JsonOk d => setStatistics (Some d)
  | JsonFail _ => fun w => w
  | Rejected => console_error "Error fetching statistics:"
  end.

(** *** Event handlers *)

Definition handleViewDetails (submission : AdvertisementSubmission)
  : World -> World :=
  setSelectedSubmission (Some submission) ;;
  setShowDetailsDialog true.

(** [handleStatusChange] up to the [await].  [r] is the render the handler
    belongs to. *)
Definition handleStatusChange (r : State) (submissionId : string)
  (newStatus : Status) : World -> World :=
  setUpdating true ;;
  fetch (PutStatus submissionId newStatus) (InHandleStatusChange r).

(** [handleStatusChange] after the [await]. *)
Definition handleStatusChange_settled (r : State) (o : Outcome unit)
  : World -> World :=
  match o with
  | JsonOk _ =>
      toast (mkToast "Success" "Status updated successfully" Default) ;;
      fetchSubmissions r ;;
      fetchStatistics
  | JsonFail e =>
      toast (mkToast "Error" (orDefault e "Failed to update status")
               Destructive)
  | Rejected =>
      console_error "Error updating status:" ;;
      toast (mkToast "Error" "Failed to update status" Destructive)
  end ;;
  setUpdating false.

(** [handleDelete] up to the [await]; [confirmed] is what
    [confirm("Are you sure you want to delete this submission?")]
    returned. *)
Definition handleDelete (r : State) (submissionId : string)
  (confirmed : bool) : World -> World :=
  if negb confirmed then (fun w => w)
  else
    setDeleting true ;;
    fetch (DeleteSubmission submissionId) (InHandleDelete r).

(** [handleDelete] after the [await]. *)
Definition handleDelete_settled (r : State) (o : Outcome unit)
  : World -> World :=
  match o with
  | JsonOk _ =>
      toast (mkToast "Success" "Submission deleted successfully" Default) ;;
      fetchSubmissions r ;;
      fetchStatistics
  | JsonFail e =>
      toast (mkToast "Error" (orDefault e "Failed to delete submission")
               Destructive)
  | Rejected =>
      console_error "Error deleting submission:" ;;
      toast (mkToast "Error" "Failed to delete submission" Destructive)
  end ;;
  setDeleting false.

(** The three filter controls.  The search box has an inline handler; the
    two [Select]s are given the bare state setters as [onValueChange]. *)
Definition onSearchChange (value : string) : World -> World :=
  setSearch value ;;
  setCurrentPage 1.

Definition onStatusFilterChange (value : string) : World -> World :=
  setFilterStatus value.

Definition onBannerTypeFilterChange (value : string) : World -> World :=
  setFilterBannerType value.

(** The two pagination buttons. *)
Definition onPreviousClick (r : State) : World -> World :=
  setCurrentPage (Z.max 1 (currentPage r - 1)).

Definition onNextClick (r : State) : World -> World :=
  setCurrentPage (Z.min (totalPages r) (currentPage r + 1)).

(** *** What the render shows *)

(** The table is rendered when [loading] is false and
    [submissions.length !== 0]. *)
Definition tableShown (r : State) : bool :=
  negb (loading r) && negb (Nat.eqb (List.length (submissions r)) 0).

(** The pagination row sits inside the table branch, under
    [totalPages > 1]. *)
Definition paginationShown (r : State) : bool :=
  tableShown r && (totalPages r >? 1).

Definition previousDisabled (r : State) : bool := currentPage r =? 1.
Definition nextDisabled (r : State) : bool := currentPage r =? totalPages r.

(** [disabled={updating}] on the status [Select] of a row and
    [disabled={deleting}] on its delete button. *)
Definition statusSelectDisabled (r : State) (row : AdvertisementSubmission)
  : bool := updating r.

Definition deleteButtonDisabled (r : State) (row : AdvertisementSubmission)
  : bool := deleting r.

(** "Showing [from] to [to] of [total] submissions". *)
Definition showingFrom (r : State) : Z := (currentPage r - 1) * 10 + 1.
Definition showingTo (r : State) : Z := Z.min (currentPage r * 10) (total r).

(** *** The component as a transition system *)

Inductive Response :=
| ListResponse (o : Outcome ListData)
| StatisticsResponse (o : Outcome Statistics)
| PlainResponse (o : Outcome unit).

(** What can happen to the mounted component: the user operates a control,
    or the [k]-th request in flight settles. *)
Inductive Event :=
| SearchInput (value : string)
| StatusFilterSelect (value : string)
| BannerTypeFilterSelect (value : string)
| PreviousClick
| NextClick
| ViewClick (row : nat)
| RowStatusSelect (row : nat) (value : Status)
| DeleteClick (row : nat) (confirmed : bool)
| DialogOpenChange (open : bool)
| Settle (k : nat) (resp : Response).

Definition dropInFlight (k : nat) (w : World) : World :=
  {| ui := ui w; toasts := toasts w; console := console w;
     sent := sent w; inFlight := remove_nth k (inFlight w) |}.

(** A control only reacts when it is rendered and not disabled; a
    response is only delivered to the continuation of its own request. *)
Definition handle (e : Event) (w : World) : World :=
  let r := ui w in
  match e with
  | SearchInput v => onSearchChange v w
  | StatusFilterSelect v => onStatusFilterChange v w
  | BannerTypeFilterSelect v => onBannerTypeFilterChange v w
  | PreviousClick =>
      if paginationShown r && negb (previousDisabled r)
      then onPreviousClick r w else w
  | NextClick =>
      if paginationShown r && negb (nextDisabled r)
      then onNextClick r w else w
  | ViewClick i =>
      match nth_error (submissions r) i with
      | Some row => if tableShown r then handleViewDetails row w else w
      | None => w
      end
  | RowStatusSelect i v =>
      match nth_error (submissions r) i with
      | Some row =>
          if tableShown r && negb (statusSelectDisabled r row)
          then handleStatusChange r (_id row) v w else w
      | None => w
      end
  | DeleteClick i c =>
      match nth_error (submissions r) i with
      | Some row =>
          if tableShown r && negb (deleteButtonDisabled r row)
          then handleDelete r (_id row) c w else w
      | None => w
      end
  | DialogOpenChange b => setShowDetailsDialog b w
  | Settle k resp =>
      match nth_error (inFlight w) k, resp with
      | Some InFetchSubmissions, ListResponse o =>
          fetchSubmissions_settled o (dropInFlight k w)
      | Some InFetchStatistics, StatisticsResponse o =>
          fetchStatistics_settled o (dropInFlight k w)
      | Some (InHandleStatusChange r0), PlainResponse o =>
          handleStatusChange_settled r0 o (dropInFlight k w)
      | Some (InHandleDelete r0), PlainResponse o =>
          handleDelete_settled r0 o (dropInFlight k w)
      | _, _ => w
      end
  end.

(** [useEffect(.., [search, filterStatus, filterBannerType, currentPage])]:
    after a render in which one of the four dependencies differs from the
    previous render, both fetches are started from the new render. *)
Definition depsChanged (prev next : State) : bool :=
  negb ((search prev =? search next)%string
        && (filterStatus prev =? filterStatus next)%string
        && (filterBannerType prev =? filterBannerType next)%string
        && (currentPage prev =? currentPage next)).

Definition useEffect (prev : State) (w : World) : World :=
  if depsChanged prev (ui w)
  then (fetchSubmissions (ui w) ;; fetchStatistics) w
  else w.

Definition dispatch (w : World) (e : Event) : World :=
  useEffect (ui w) (handle e w).

(** The component right after mounting: the effect has run once. *)
Definition mounted : World :=
  (fetchSubmissions initialState ;; fetchStatistics)
    {| ui := initialState; toasts := []; console := [];
       sent := []; inFlight := [] |}.

Definition run (evs : list Event) (w : World) : World :=
  fold_left dispatch evs w.

(** Requests of each mutation kind that have not settled yet. *)
Definition isStatusChange (k : Awaiting) : bool :=
  match k with InHandleStatusChange _ => true | _ => false end.

Definition isDelete (k : Awaiting) : bool :=
  match k with InHandleDelete _ => true | _ => false end.

Definition statusChangesInFlight (w : World) : nat :=
  List.length (filter isStatusChange (inFlight w)).

Definition deletesInFlight (w : World) : nat :=
  List.length (filter isDelete (inFlight w)).

End Admin.

(* ================================================================== *)
(** ** The lead-capture form: [AdvertisementBanners] *)
(* ================================================================== *)

Module Banners.

(** *** Data model *)

(** [type: "residential" | "commercial" | "investment" | "industrial"] *)
Inductive BannerType := Residential | Commercial | Investment | Industrial.

Definition BannerType_value (t : BannerType) : string :=
  match t with
  | Residential => "residential"
  | Commercial => "commercial"
  | Investment => "investment"
  | Industrial => "industrial"
  end.

(** An entry of [BANNERS]; the purely presentational [bgColor] and [icon]
    are left out. *)
Record AdvertisementBanner := mkBanner {
  banner_id : string;
  banner_title : string;
  banner_description : string;
  banner_type : BannerType
}.

Definition BANNERS : list AdvertisementBanner :=
  [ mkBanner "residential"
      "Advertise Your New Residential Project in Rohtak"
      "Reach thousands of homebuyers looking for their dream home"
      Residential;
    mkBanner "commercial"
      "Advertise Your New Commercial Project in Rohtak"
      "Connect with business owners and investors"
      Commercial;
    mkBanner "investment"
      "Advertise Your Real Estate Investment Project in Rohtak"
      "Attract serious investors to your projects"
      Investment;
    mkBanner "industrial"
      "Advertise Your Industrial Property in Rohtak"
      "Find the right businesses and manufacturers"
      Industrial ].

(** The [formData] object.  Of the interface [AdvertisementSubmission] the
    component only ever holds these nine string fields ([_id], [createdAt]
    and [status] are never set; [budget] always holds a string). *)
Record AdvertisementSubmission := mkFormData {
  bannerType : string;
  fullName : string;
  email : string;
  phone : string;
  projectName : string;
  location : string;
  projectType : string;
  budget : string;
  description : string
}.

(** The keys [handleInputChange] is called with. *)
Inductive Field :=
| Key_bannerType | Key_fullName | Key_email | Key_phone | Key_projectName
| Key_location | Key_projectType | Key_budget | Key_description.

Record State := mkState {
  selectedBanner : option AdvertisementBanner;
  showForm : bool;
  loading : bool;
  formData : AdvertisementSubmission
}.

Definition initialState : State :=
  {| selectedBanner := None;
     showForm := false;
     loading := false;
     formData := mkFormData "" "" "" "" "" "" "" "" "" |}.

(** The only request of this component:
    [POST /api/advertisement/submissions] with body
    [JSON.stringify(formData)]. *)
Inductive Request :=
| PostSubmission (body : AdvertisementSubmission).

Record World := mkWorld {
  ui : State;
  toasts : list Toast;
  console : list string;
  sent : list Request;
  inFlight : nat
}.

(** *** State setters and effects *)

Definition withState (f : State -> State) (w : World) : World :=
  {| ui := f (ui w); toasts := toasts w; console := console w;
     sent := sent w; inFlight := inFlight w |}.

Definition setSelectedBanner (v : option AdvertisementBanner)
  : World -> World :=
  withState (fun s => mkState v (showForm s) (loading s) (formData s)).

Definition setShowForm (v : bool) : World -> World :=
  withState (fun s => mkState (selectedBanner s) v (loading s) (formData s)).

Definition setLoading (v : bool) : World -> World :=
  withState (fun s => mkState (selectedBanner s) (showForm s) v (formData s)).

(** [setFormData(v)] and the updater form [setFormData((prev) => ..)]. *)
Definition setFormData (v : AdvertisementSubmission) : World -> World :=
  withState (fun s => mkState (selectedBanner s) (showForm s) (loading s) v).

Definition updateFormData (f : AdvertisementSubmission -> AdvertisementSubmission)
  : World -> World :=
  withState (fun s =>
    mkState (selectedBanner s) (showForm s) (loading s) (f (formData s))).

Definition toast (t : Toast) (w : World) : World :=
  {| ui := ui w; toasts := toasts w ++ [t]; console := console w;
     sent := sent w; inFlight := inFlight w |}.

Definition console_error (msg : string) (w : World) : World :=
  {| ui := ui w; toasts := toasts w; console := console w ++ [msg];
     sent := sent w; inFlight := inFlight w |}.

Definition fetch (r : Request) (w : World) : World :=
  {| ui := ui w; toasts := toasts w; console := console w;
     sent := sent w ++ [r]; inFlight := S (inFlight w) |}.

Definition andThen (a b : World -> World) : World -> World :=
  fun w => b (a w).
Notation "a ;; b" := (andThen a b) (at level 61, right associativity).

(** *** Handlers *)

Definition handleBannerClick (banner : AdvertisementBanner)
  : World -> World :=
  setSelectedBanner (Some banner) ;;
  setFormData
    {| bannerType := BannerType_value (banner_type banner);
       fullName := "";
       email := "";
       phone := "";
       projectName := "";
       location := "";
       projectType := BannerType_value (banner_type banner);
       budget := "";
       description := "" |} ;;
  setShowForm true.

(** [{ ...prev, [field]: value }] *)
Definition assign (field : Field) (value : string)
  (prev : AdvertisementSubmission) : AdvertisementSubmission :=
  match field with
  | Key_bannerType =>
      mkFormData value (fullName prev) (email prev) (phone prev)
        (projectName prev) (location prev) (projectType prev) (budget prev)
        (description prev)
  | Key_fullName =>
      mkFormData (bannerType prev) value (email prev) (phone prev)
        (projectName prev) (location prev) (projectType prev) (budget prev)
        (description prev)
  | Key_email =>
      mkFormData (bannerType prev) (fullName prev) value (phone prev)
        (projectName prev) (location prev) (projectType prev) (budget prev)
        (description prev)
  | Key_phone =>
      mkFormData (bannerType prev) (fullName prev) (email prev) value
        (projectName prev) (location prev) (projectType prev) (budget prev)
        (description prev)
  | Key_projectName =>
      mkFormData (bannerType prev) (fullName prev) (email prev) (phone prev)
        value (location prev) (projectType prev) (budget prev)
        (description prev)
  | Key_location =>
      mkFormData (bannerType prev) (fullName prev) (email prev) (phone prev)
        (projectName prev) value (projectType prev) (budget prev)
        (description prev)
  | Key_projectType =>
      mkFormData (bannerType prev) (fullName prev) (email prev) (phone prev)
        (projectName prev) (location prev) value (budget prev)
        (description prev)
  | Key_budget =>
      mkFormData (bannerType prev) (fullName prev) (email prev) (phone prev)
        (projectName prev) (location prev) (projectType prev) value
        (description prev)
  | Key_description =>
      mkFormData (bannerType prev) (fullName prev) (email prev) (phone prev)
        (projectName prev) (location prev) (projectType prev) (budget prev)
        value
  end.

Definition handleInputChange (field : Field) (value : string)
  : World -> World :=
  updateFormData (assign field value).

(** The condition of the first [if] of [handleSubmit]. *)
Definition missingRequired (d : AdvertisementSubmission) : bool :=
  negb (truthy (fullName d))
  || negb (truthy (email d))
  || negb (truthy (phone d))
  || negb (truthy (projectName d))
  || negb (truthy (location d))
  || negb (truthy (description d)).

(** [handleSubmit] up to the [await]; [r] is the render the handler
    belongs to ([e.preventDefault()] has no effect on the component). *)
Definition handleSubmit (r : State) : World -> World :=
  if missingRequired (formData r)
  then
    toast (mkToast "Error" "Please fill in all required fields" Destructive)
  else
    setLoading true ;;
    fetch (PostSubmission (formData r)).

(** [handleSubmit] after the [await]. *)
Definition handleSubmit_settled (o : Outcome unit) : World -> World :=
  (fun w =>
     {| ui := ui w; toasts := toasts w; console := console w;
        sent := sent w; inFlight := Nat.pred (inFlight w) |}) ;;
  match o with
  | JsonOk _ =>
      toast (mkToast "Success"
               "Your submission has been sent to our sales team" Default) ;;
      setShowForm false ;;
      setSelectedBanner None
  | JsonFail e =>
      toast (mkToast "Error" (orDefault e "Failed to submit form")
               Destructive)
  | Rejected =>
      console_error "Error submitting form:" ;;
      toast (mkToast "Error"
               "Failed to submit your request. Please try again."
               Destructive)
  end ;;
  setLoading false.

(** Pressing the submit button of the form, from the current render. *)
Definition submit (w : World) : World := handleSubmit (ui w) w.

End Banners.

(* ================================================================== *)
(** ** Specification-level definitions and scenarios *)
(* ================================================================== *)

(** The predicates in which the properties below are stated, and the
    concrete runs of the components they are tried on. *)

Module AdminScenarios.
Import Admin.

(** *** Predicates *)

(** The display range as the specification words it, for a page size. *)
Definition spec_offsetStart (page pageSize : Z) : Z :=
  (page - 1) * pageSize + 1.

Definition spec_offsetEnd (page pageSize total : Z) : Z :=
  Z.min (page * pageSize) total.

(** The page size the component asks the store for: the [limit] entry of
    the list request. *)
Definition requestedLimit (r : State) : option string :=
  option_map snd
    (find (fun kv => (fst kv =? "limit")%string) (listParams r)).

(** The error toast of a failed call: title "Error", destructive, and as
    description the server's non-empty message or else the generic text. *)
Definition failureToast (A : Type) (o : Outcome A) (generic : string)
  (t : Toast) : Prop :=
  toast_title t = "Error"
  /\ toast_variant t = Destructive
  /\ (toast_description t = generic
      \/ exists m, o = JsonFail (Some m) /\ m <> "" /\ toast_description t = m).
Arguments failureToast {A} o generic t.

Definition isDeleteRequest (q : Request) : bool :=
  match q with DeleteSubmission _ => true | _ => false end.

(** Each flag is raised exactly while one request of its kind is
    outstanding. *)
Definition flagsAgree (w : World) : Prop :=
  statusChangesInFlight w = (if updating (ui w) then 1 else 0)%nat
  /\ deletesInFlight w = (if deleting (ui w) then 1 else 0)%nat.

(** A page button reacts to a click when the pagination row is rendered
    and the button is not disabled. *)
Definition previousReacts (r : State) : bool :=
  paginationShown r && negb (previousDisabled r).

Definition nextReacts (r : State) : bool :=
  paginationShown r && negb (nextDisabled r).

(** The event is a list response with a truthy [success]. *)
Definition isListSuccess (e : Event) : bool :=
  match e with
  | Settle _ (ListResponse (JsonOk _)) => true
  | _ => false
  end.

(** *** Sample data *)

Definition lead (id : string) (st : Status) : AdvertisementSubmission :=
  {| _id := id; bannerType := "residential"; fullName := "A. Kumar";
     email := "a@example.com"; phone := "9000000000";
     projectName := "Green Homes"; location := "Sector 1";
     projectType := "residential"; budget := None;
     description := "Plots"; status := st;
     createdAt := "2024-01-01T00:00:00.000Z";
     updatedAt := "2024-01-01T00:00:00.000Z" |}.

Definition tenLeads : list AdvertisementSubmission :=
  map (fun id => lead id New)
    ["s0"; "s1"; "s2"; "s3"; "s4"; "s5"; "s6"; "s7"; "s8"; "s9"].

(** A successful list response: the given rows, [total], [pages]. *)
Definition listOk (rows : list AdvertisementSubmission) (tot pgs : Z)
  : Response :=
  ListResponse (JsonOk (mkListData rows tot pgs)).

Definition statsOk : Response :=
  StatisticsResponse
    (JsonOk (mkStatistics 50 15 20 15 [("residential", 50)])).

(** *** Runs of the mounted component *)

(** The store holds 50 rows.  The admin pages forward to page 3 of 5; every
    request is answered before the next click. *)
Definition toPage3 : list Event :=
  [ Settle 0 (listOk tenLeads 50 5); Settle 0 statsOk;
    NextClick; Settle 0 (listOk tenLeads 50 5); Settle 0 statsOk;
    NextClick; Settle 0 (listOk tenLeads 50 5); Settle 0 statsOk ].

Definition onPage3 : World := run toPage3 mounted.

(** On page 3 of 5 the admin selects status ["new"]; 15 rows match, so the
    store answers the request for page 3 with no rows and 2 pages. *)
Definition outOfRange : World :=
  run [StatusFilterSelect "new"; Settle 0 (listOk [] 15 2)] onPage3.

(** A stale response.  On page 2 of 5 the admin selects status ["new"] and
    at once clears it again; the request of the first choice ([page=2],
    [status=new]) stays in flight while the one of the second settles.  The
    admin pages forward to page 5; then the old request settles with the
    second page of the 15 ["new"] rows: 5 rows, 2 pages. *)
Definition staleResponse : list Event :=
  [ Settle 0 (listOk tenLeads 50 5); Settle 0 statsOk;
    NextClick; Settle 0 (listOk tenLeads 50 5); Settle 0 statsOk;
    StatusFilterSelect "new";
    StatusFilterSelect "";
    Settle 2 (listOk tenLeads 50 5); Settle 1 statsOk; Settle 1 statsOk;
    NextClick; Settle 1 (listOk tenLeads 50 5); Settle 1 statsOk;
    NextClick; Settle 1 (listOk tenLeads 50 5); Settle 1 statsOk;
    NextClick; Settle 1 (listOk tenLeads 50 5); Settle 1 statsOk;
    Settle 0 (listOk (firstn 5 tenLeads) 15 2) ].

Definition afterStaleResponse : World := run staleResponse mounted.

(** Two rows are displayed; the admin changes the status of the first and,
    before the store answers, deletes the second. *)
Definition statusThenDelete : list Event :=
  [ Settle 0 (listOk [lead "a" New; lead "b" New] 2 1);
    RowStatusSelect 0 Viewed;
    DeleteClick 1 true ].

End AdminScenarios.

Module BannersScenarios.
Import Banners.

(** All six required fields hold a non-empty string. *)
Definition requiredFilled (d : AdvertisementSubmission) : Prop :=
  fullName d <> "" /\ email d <> "" /\ phone d <> ""
  /\ projectName d <> "" /\ location d <> "" /\ description d <> "".

(** A form as the "commercial" banner opens it, with the six required
    fields typed in and [budget] left empty. *)
Definition filledForm : World :=
  (handleBannerClick (mkBanner "commercial"
      "Advertise Your New Commercial Project in Rohtak"
      "Connect with business owners and investors" Commercial) ;;
   handleInputChange Key_fullName "A. Kumar" ;;
   handleInputChange Key_email "a@example.com" ;;
   handleInputChange Key_phone "9000000000" ;;
   handleInputChange Key_projectName "City Mall" ;;
   handleInputChange Key_location "Sector 1" ;;
   handleInputChange Key_description "Shops")
    {| ui := initialState; toasts := []; console := [];
       sent := []; inFlight := 0 |}.

End BannersScenarios.

(* ================================================================== *)
(** ** The browser the install banners run in *)
(* ================================================================== *)

(** The two install banners ([MobileInstallationReminder] and
    [PWAInstallButton]) talk to each other only through [localStorage], and
    both look at [navigator.userAgent]. *)

From Stdlib Require Import Ascii.

Module Browser.

(** The [i] flag of a regular expression without the [u] flag, as far as
    ASCII literals go.  Matching compares canonicalized characters, and
    canonicalization never turns a character outside ASCII into an ASCII
    one; so an ASCII literal matches exactly its ASCII case variants, and
    the test can be made on the subject with [A]..[Z] folded to [a]..[z].
    A string is the sequence of its UTF-8 bytes: bytes above 127 belong to
    characters outside ASCII and are left alone.  (This is the regular
    expression's own folding, not [String.prototype.toLowerCase].) *)
Definition lowerAscii (c : ascii) : ascii :=
  let n := nat_of_ascii c in
  if (Nat.leb 65 n && Nat.leb n 90)%bool then ascii_of_nat (n + 32) else c.

Fixpoint foldCase (s : string) : string :=
  match s with
  | EmptyString => EmptyString
  | String c s' => String (lowerAscii c) (foldCase s')
  end.

(** The literal [lit] occurs somewhere in [s]. *)
Fixpoint occursIn (lit s : string) : bool :=
  (String.prefix lit s
   || match s with
      | EmptyString => false
      | String _ s' => occursIn lit s'
      end)%bool.

(** [/a|b|..|z/i.test(s)] for lower-case literals [a], [b], .., [z]. *)
Definition testAnyIgnoreCase (literals : list string) (s : string) : bool :=
  existsb (fun lit => occursIn lit (foldCase s)) literals.

(** What a value kept under a key means to the code that reads it back with
    [new Date(JSON.parse(text).timestamp).getTime()]:
    - [Unreadable]: [JSON.parse] throws, or yields [null] so that reading
      [.timestamp] throws;
    - [Stamp None]: the text parses but [timestamp] is missing or is no
      date, so [getTime()] is [NaN];
    - [Stamp (Some t)]: [getTime()] is [t] milliseconds.
    [JSON.stringify({ timestamp: new Date().toISOString(), .. })] written at
    the instant [t] reads back as [Stamp (Some t)]. *)
Inductive Item := Unreadable | Stamp (ms : option Z).

(** The part of the browser the banners use.  A storage slot is [None]
    when [getItem] returns [null] or the empty string (both falsy). *)
Record Browser := mkBrowser {
  userAgent : string;
  (** [localStorage.getItem] / [setItem] return without throwing *)
  localReadable : bool;
  localWritable : bool;
  (** ["mobile-install-reminder-dismissed"] *)
  reminderDismissed : option Item;
  (** ["apk-download-attempted"] *)
  apkDownloadAttempted : option Item;
  (** ["pwa-installed"] *)
  pwaInstalled : option string;
  (** [sessionStorage.getItem] / [setItem] return without throwing *)
  sessionReadable : bool;
  sessionWritable : bool;
  (** ["ashish_download_dismissed_session"] *)
  downloadDismissedSession : option string;
  (** [window.alert] and the call of [fetch] return without throwing *)
  alertWorks : bool;
  fetchWorks : bool
}.

Definition setReminderDismissed (v : option Item) (b : Browser) : Browser :=
  mkBrowser (userAgent b) (localReadable b) (localWritable b) v
    (apkDownloadAttempted b) (pwaInstalled b) (sessionReadable b)
    (sessionWritable b) (downloadDismissedSession b) (alertWorks b)
    (fetchWorks b).

Definition setApkDownloadAttempted (v : option Item) (b : Browser) : Browser :=
  mkBrowser (userAgent b) (localReadable b) (localWritable b)
    (reminderDismissed b) v (pwaInstalled b) (sessionReadable b)
    (sessionWritable b) (downloadDismissedSession b) (alertWorks b)
    (fetchWorks b).

Definition setPwaInstalled (v : option string) (b : Browser) : Browser :=
  mkBrowser (userAgent b) (localReadable b) (localWritable b)
    (reminderDismissed b) (apkDownloadAttempted b) v (sessionReadable b)
    (sessionWritable b) (downloadDismissedSession b) (alertWorks b)
    (fetchWorks b).

Definition setDownloadDismissedSession (v : option string) (b : Browser)
  : Browser :=
  mkBrowser (userAgent b) (localReadable b) (localWritable b)
    (reminderDismissed b) (apkDownloadAttempted b) (pwaInstalled b)
    (sessionReadable b) (sessionWritable b) v (alertWorks b) (fetchWorks b).

(** [try { localStorage.setItem(..) } catch {}]: the write happens when the
    storage takes it and is dropped otherwise. *)
Definition tryLocal (write : Browser -> Browser) (b : Browser) : Browser :=
  if localWritable b then write b else b.

Definition trySession (write : Browser -> Browser) (b : Browser) : Browser :=
  if sessionWritable b then write b else b.

(** One hour in milliseconds, [1000 * 60 * 60]. *)
Definition hourMs : Z := 1000 * 60 * 60.

(** [(now - t) / (1000 * 60 * 60) < hours] for integer millisecond counts.
    The quotient of the source is a double; an integer [now - t] below
    [hours * 3600000] gives a quotient at least [1/3600000] below [hours],
    far more than the rounding error, so the comparison on doubles and this
    one on integers agree. *)
Definition hoursSinceBelow (now t hours : Z) : bool :=
  now - t <? hours * hourMs.

Inductive Level := Log | Warn | Error.

End Browser.

(* ================================================================== *)
(** ** The reminder on desktop: [MobileInstallationReminder] *)
(* ================================================================== *)

Module Reminder.
Import Browser.

Record State := mkState {
  visible : bool;
  dismissed : bool
}.

Definition initialState : State := {| visible := false; dismissed := false |}.

Record World := mkWorld {
  ui : State;
  browser : Browser;
  console : list (Level * string)
}.

Definition setVisible (v : bool) (w : World) : World :=
  {| ui := mkState v (dismissed (ui w)); browser := browser w;
     console := console w |}.

Definition setDismissed (v : bool) (w : World) : World :=
  {| ui := mkState (visible (ui w)) v; browser := browser w;
     console := console w |}.

Definition console_warn (msg : string) (w : World) : World :=
  {| ui := ui w; browser := browser w;
     console := console w ++ [(Warn, msg)] |}.

Definition withBrowser (f : Browser -> Browser) (w : World) : World :=
  {| ui := ui w; browser := f (browser w); console := console w |}.

(** The second half of the effect: the install attempt.  Whatever goes
    wrong while reading the record is swallowed by the inner [catch {}]. *)
Definition checkInstallAttempt (now : Z) (w : World) : World :=
  match apkDownloadAttempted (browser w) with
  | Some (Stamp (Some t)) =>
      if hoursSinceBelow now t 168 then setVisible true w else w
  | Some (Stamp None) => w
  | Some Unreadable => w
  | None => w
  end.

Section Platform.

(** [String.prototype.toLowerCase], a builtin of the platform.  It follows
    the Unicode case mappings: besides [A]..[Z] it maps, for example, the
    Kelvin sign (U+212A) to [k].  It is taken as it is. *)
Variable toLowerCase : string -> string.

(** [/android|webos|iphone|ipad|ipod|blackberry|iemobile|opera mini/i
      .test(navigator.userAgent.toLowerCase())] *)
Definition isMobile (ua : string) : bool :=
  testAnyIgnoreCase
    ["android"; "webos"; "iphone"; "ipad"; "ipod"; "blackberry"; "iemobile";
     "opera mini"]
    (toLowerCase ua).

(** The mount effect, run at the instant [now] ([Date.now()]). *)
Definition mountEffect (now : Z) (w : World) : World :=
  if isMobile (userAgent (browser w)) then w
  else if negb (localReadable (browser w))
  then console_warn "Error checking install reminder:" w
  else
    match reminderDismissed (browser w) with
    | Some Unreadable => console_warn "Error checking install reminder:" w
    | Some (Stamp (Some t)) =>
        if hoursSinceBelow now t 24 then setDismissed true w
        else checkInstallAttempt now w
    | Some (Stamp None) => checkInstallAttempt now w
    | None => checkInstallAttempt now w
    end.

(** The component mounted at [now] in the browser [b]. *)
Definition mounted (now : Z) (b : Browser) : World :=
  mountEffect now {| ui := initialState; browser := b; console := [] |}.

End Platform.

(** [handleDismiss], pressed at the instant [now]. *)
Definition handleDismiss (now : Z) (w : World) : World :=
  setDismissed true
    (setVisible false
       (withBrowser
          (tryLocal (setReminderDismissed (Some (Stamp (Some now))))) w)).

(** [if (!visible || dismissed) return null] *)
Definition rendered (s : State) : bool :=
  negb (negb (visible s) || dismissed s).

End Reminder.

(* ================================================================== *)
(** ** The download banner: [PWAInstallButton] *)
(* ================================================================== *)

Module Pwa.
Import Browser.

(** A [beforeinstallprompt] event; [prompt] is an optional member. *)
Record BeforeInstallPromptEvent := mkBip {
  hasPrompt : bool
}.

Record State := mkState {
  bipEvt : option BeforeInstallPromptEvent;
  visible : bool;
  installing : bool;
  showInstallHelp : bool
}.

Definition initialState : State :=
  {| bipEvt := None; visible := false; installing := false;
     showInstallHelp := false |}.

(** The two suspended computations: the promise chain of [downloadApk] and
    [installPWA] at its [await]s. *)
Inductive Awaiting := InDownloadApk | InInstallPWA.

Record World := mkWorld {
  ui : State;
  browser : Browser;
  toasts : list Toast;
  console : list (Level * string);
  alerts : list string;
  (** where the browser is sent for a download: values assigned to
      [window.location.href] and [href]s of links the user follows *)
  navigations : list string;
  (** URLs passed to [fetch] *)
  sent : list string;
  inFlight : list Awaiting
}.

(** *** Setters and effects *)

Definition withState (f : State -> State) (w : World) : World :=
  mkWorld (f (ui w)) (browser w) (toasts w) (console w) (alerts w)
    (navigations w) (sent w) (inFlight w).

Definition setBipEvt (v : option BeforeInstallPromptEvent) : World -> World :=
  withState (fun s => mkState v (visible s) (installing s) (showInstallHelp s)).

Definition setVisible (v : bool) : World -> World :=
  withState (fun s => mkState (bipEvt s) v (installing s) (showInstallHelp s)).

Definition setInstalling (v : bool) : World -> World :=
  withState (fun s => mkState (bipEvt s) (visible s) v (showInstallHelp s)).

Definition setShowInstallHelp (v : bool) : World -> World :=
  withState (fun s => mkState (bipEvt s) (visible s) (installing s) v).

Definition withBrowser (f : Browser -> Browser) (w : World) : World :=
  mkWorld (ui w) (f (browser w)) (toasts w) (console w) (alerts w)
    (navigations w) (sent w) (inFlight w).

Definition toast (t : Toast) (w : World) : World :=
  mkWorld (ui w) (browser w) (toasts w ++ [t]) (console w) (alerts w)
    (navigations w) (sent w) (inFlight w).

Definition console_out (l : Level) (msg : string) (w : World) : World :=
  mkWorld (ui w) (browser w) (toasts w) (console w ++ [(l, msg)]) (alerts w)
    (navigations w) (sent w) (inFlight w).

Definition alert (msg : string) (w : World) : World :=
  mkWorld (ui w) (browser w) (toasts w) (console w) (alerts w ++ [msg])
    (navigations w) (sent w) (inFlight w).

Definition navigate (href : string) (w : World) : World :=
  mkWorld (ui w) (browser w) (toasts w) (console w) (alerts w)
    (navigations w ++ [href]) (sent w) (inFlight w).

Definition fetch (url : string) (w : World) : World :=
  mkWorld (ui w) (browser w) (toasts w) (console w) (alerts w)
    (navigations w) (sent w ++ [url]) (inFlight w ++ [InDownloadApk]).

Definition await (k : Awaiting) (w : World) : World :=
  mkWorld (ui w) (browser w) (toasts w) (console w) (alerts w)
    (navigations w) (sent w) (inFlight w ++ [k]).

Definition andThen (a b : World -> World) : World -> World :=
  fun w => b (a w).
Notation "a ;; b" := (andThen a b) (at level 61, right associativity).

(** [/android/i.test(navigator.userAgent)] *)
Definition isAndroid (ua : string) : bool :=
  testAnyIgnoreCase ["android"] ua.

(** *** Effects run on mount *)

(** The first effect: show the banner unless this session dismissed it;
    a storage that throws shows it as well. *)
Definition showOnLoad (w : World) : World :=
  if sessionReadable (browser w)
  then
    match downloadDismissedSession (browser w) with
    | Some v => if (v =? "1")%string then w else setVisible true w
    | None => setVisible true w
    end
  else setVisible true w.

(** *** Listeners and handlers *)

Definition onBIP (e : BeforeInstallPromptEvent) : World -> World :=
  setBipEvt (Some e).

Definition onInstalled : World -> World :=
  withBrowser (tryLocal (setPwaInstalled (Some "true"))) ;;
  setBipEvt None ;;
  setVisible false ;;
  setInstalling false ;;
  toast (mkToast "Installed 🎉" "App has been added to your home screen."
           Default).

(** [downloadApk] up to the point where the promise chain is set up. *)
Definition downloadApk (w : World) : World :=
  if negb (isAndroid (userAgent (browser w)))
  then
    if alertWorks (browser w)
    then
      alert
        "APK installs only on Android devices. Please open this site on an Android phone to install the APK."
        w
    else console_out Warn "Non-Android device attempted APK download" w
  else
    if fetchWorks (browser w)
    then fetch "/api/app/info" w
    else
      (console_out Error "Failed to start APK download:" ;;
       toast (mkToast "Download failed"
                "Could not start APK download. Please try again."
                Destructive)) w.

(** How [fetch("/api/app/info").then((res) => res.json())] settles: it
    rejects, or the body is read; [success] and [available] are the
    truthiness of [data.success] and of [data.data?.available]. *)
Inductive InfoOutcome :=
| InfoRejected
| Info (success available : bool).

(** The [.then((data) => ..)] and [.catch((e) => ..)] callbacks, run at the
    instant [now]. *)
Definition downloadApk_settled (now : Z) (o : InfoOutcome) : World -> World :=
  match o with
  | Info success available =>
      if (negb success || negb available)%bool
      then
        toast (mkToast "Download not available"
                 "APK file is not available. Please contact support."
                 Destructive)
      else
        navigate "/api/app/download" ;;
        setShowInstallHelp true ;;
        withBrowser
          (tryLocal (setApkDownloadAttempted (Some (Stamp (Some now))))) ;;
        console_out Log "APK download started via UI"
  | InfoRejected =>
      console_out Error "Failed to check APK availability:" ;;
      toast (mkToast "Connection error"
               "Could not check APK availability. Please check your internet and try again."
               Destructive)
  end.

(** [installPWA] up to its first [await]; [r] is the render the handler
    belongs to. *)
Definition installPWA (r : State) : World -> World :=
  match bipEvt r with
  | Some e =>
      if hasPrompt e
      then setInstalling true ;; await InInstallPWA
      else
        toast (mkToast "Install not available"
                 "Your browser doesn't support direct install. Use the Download App button."
                 Default)
  | None =>
      toast (mkToast "Install not available"
               "Your browser doesn't support direct install. Use the Download App button."
               Default)
  end.

(** How [bipEvt.prompt()] and then [bipEvt.userChoice?.catch(() => null)]
    settle: [prompt] throws or rejects, or a choice is there; [accepted]
    says whether [choice?.outcome] is ["accepted"]. *)
Inductive PromptOutcome :=
| PromptFailed
| Choice (accepted : bool).

(** [installPWA] after its [await]s, with the [catch] and [finally]
    blocks. *)
Definition installPWA_settled (o : PromptOutcome) : World -> World :=
  match o with
  | Choice accepted =>
      if accepted then (fun w => w) else setInstalling false
  | PromptFailed =>
      setInstalling false ;;
      toast (mkToast "Installation error" "Please try again." Destructive)
  end ;;
  setBipEvt None.

Definition dismiss : World -> World :=
  withBrowser (trySession (setDownloadDismissedSession (Some "1"))) ;;
  setVisible false.

(** *** The component as a transition system *)

Inductive Event :=
| BeforeInstallPrompt (e : BeforeInstallPromptEvent)
| AppInstalled
| DownloadClick
| InstallClick
| DismissClick
| GotItClick
| DownloadAgainClick
| InfoSettled (k : nat) (now : Z) (o : InfoOutcome)
| PromptSettled (k : nat) (o : PromptOutcome).

Definition dropInFlight (k : nat) (w : World) : World :=
  mkWorld (ui w) (browser w) (toasts w) (console w) (alerts w)
    (navigations w) (sent w) (remove_nth k (inFlight w)).

(** The banner is rendered when [visible]; its three buttons carry
    [disabled={installing}]; the install link needs [bipEvt], the help box
    with its "Got it" button and its "Download again" link
    ([<a href="/api/app/download">]) needs [showInstallHelp]. *)
Definition dispatch (w : World) (e : Event) : World :=
  let r := ui w in
  match e with
  | BeforeInstallPrompt ev => onBIP ev w
  | AppInstalled => onInstalled w
  | DownloadClick =>
      if (visible r && negb (installing r))%bool then downloadApk w else w
  | InstallClick =>
      match bipEvt r with
      | Some _ =>
          if (visible r && negb (installing r))%bool
          then installPWA r w else w
      | None => w
      end
  | DismissClick =>
      if (visible r && negb (installing r))%bool then dismiss w else w
  | GotItClick =>
      if (visible r && showInstallHelp r)%bool
      then setShowInstallHelp false w else w
  | DownloadAgainClick =>
      if (visible r && showInstallHelp r)%bool
      then navigate "/api/app/download" w else w
  | InfoSettled k now o =>
      match nth_error (inFlight w) k with
      | Some InDownloadApk => downloadApk_settled now o (dropInFlight k w)
      | _ => w
      end
  | PromptSettled k o =>
      match nth_error (inFlight w) k with
      | Some InInstallPWA => installPWA_settled o (dropInFlight k w)
      | _ => w
      end
  end.

(** The component right after mounting in the browser [b]. *)
Definition mounted (b : Browser) : World :=
  showOnLoad
    (mkWorld initialState b [] [] [] [] [] []).

Definition run (evs : list Event) (w : World) : World :=
  fold_left dispatch evs w.

End Pwa.

(* ================================================================== *)
(** ** The lead-capture form as a transition system *)
(* ================================================================== *)

Module BannersSystem.
Import Banners.

(** What can happen to the mounted [AdvertisementBanners]: a banner card
    (or its "Get Started" button) is clicked, the user types into one of
    the inputs of the open form, submits it, closes it (the X button,
    "Cancel", or the dialog's own [onOpenChange]), or the request in flight
    settles. *)
Inductive Event :=
| BannerClick (i : nat)
| InputChange (field : Field) (value : string)
| SubmitForm
| CloseForm
| Settle (o : Outcome unit).

(** The fields that have an [Input] or [Textarea] with an [onChange]; the
    project-type [Select] has none. *)
Definition hasInput (f : Field) : bool :=
  match f with
  | Key_fullName | Key_email | Key_phone | Key_projectName | Key_location
  | Key_budget | Key_description => true
  | Key_bannerType | Key_projectType => false
  end.

(** The form lives inside the dialog, which is open when [showForm]; the
    submit button carries [disabled={loading}].  (The [required] attributes
    of the inputs are not modelled: the browser's own validation can only
    keep a submit from reaching [handleSubmit].) *)
Definition dispatch (w : World) (e : Event) : World :=
  match e with
  | BannerClick i =>
      match nth_error BANNERS i with
      | Some banner => handleBannerClick banner w
      | None => w
      end
  | InputChange f v =>
      if (showForm (ui w) && hasInput f)%bool
      then handleInputChange f v w else w
  | SubmitForm =>
      if (showForm (ui w) && negb (loading (ui w)))%bool
      then handleSubmit (ui w) w else w
  | CloseForm => setShowForm false w
  | Settle o =>
      match inFlight w with
      | O => w
      | S _ => handleSubmit_settled o w
      end
  end.

Definition mounted : World :=
  {| ui := initialState; toasts := []; console := [];
     sent := []; inFlight := 0 |}.

Definition run (evs : list Event) (w : World) : World :=
  fold_left dispatch evs w.

(** [formData[field]] *)
Definition field (f : Field) (d : AdvertisementSubmission) : string :=
  match f with
  | Key_bannerType => bannerType d
  | Key_fullName => fullName d
  | Key_email => email d
  | Key_phone => phone d
  | Key_projectName => projectName d
  | Key_location => location d
  | Key_projectType => projectType d
  | Key_budget => budget d
  | Key_description => description d
  end.

Definition Field_eqb (f g : Field) : bool :=
  match f, g with
  | Key_bannerType, Key_bannerType | Key_fullName, Key_fullName
  | Key_email, Key_email | Key_phone, Key_phone
  | Key_projectName, Key_projectName | Key_location, Key_location
  | Key_projectType, Key_projectType | Key_budget, Key_budget
  | Key_description, Key_description => true
  | _, _ => false
  end.

End BannersSystem.

(* ================================================================== *)
(** ** Further specification-level definitions and scenarios *)
(* ================================================================== *)

Module AdminSystemScenarios.
Import Admin.

(** A list request as the store expects it: [limit=10], a page number that
    is at least 1, and no key twice. *)
Definition wellFormed (q : Request) : Prop :=
  match q with
  | GetSubmissions ps =>
      In ("limit", "10") ps
      /\ (exists p, 1 <= p /\ In ("page", toString p) ps)
      /\ NoDup (map fst ps)
  | _ => True
  end.

Definition capturedPageOk (k : Awaiting) : Prop :=
  match k with
  | InHandleStatusChange r => 1 <= currentPage r
  | InHandleDelete r => 1 <= currentPage r
  | _ => True
  end.

Definition pagesOk (w : World) : Prop :=
  1 <= currentPage (ui w)
  /\ Forall capturedPageOk (inFlight w)
  /\ Forall wellFormed (sent w).

Definition isQueryControl (e : Event) : bool :=
  match e with
  | SearchInput _ | StatusFilterSelect _ | BannerTypeFilterSelect _
  | PreviousClick | NextClick => true
  | _ => false
  end.

End AdminSystemScenarios.

Module BannersSystemScenarios.
Import Banners BannersScenarios BannersSystem.

(** A body the store should accept: the six required fields filled, and
    both [bannerType] and [projectType] equal to the type of one banner. *)
Definition goodBody (q : Request) : Prop :=
  match q with
  | PostSubmission d =>
      requiredFilled d
      /\ exists t, bannerType d = BannerType_value t
                   /\ projectType d = BannerType_value t
  end.

(** The form is submitted and the request settles with [o], with nothing
    else happening in between. *)
Definition submitAndSettle (o : Outcome unit) (w : World) : World :=
  dispatch (dispatch w SubmitForm) (Settle o).

(** The open form belongs to the selected banner. *)
Definition formOfSelectedBanner (w : World) : Prop :=
  showForm (ui w) = false
  \/ exists banner,
       In banner BANNERS
       /\ selectedBanner (ui w) = Some banner
       /\ bannerType (formData (ui w)) = BannerType_value (banner_type banner)
       /\ projectType (formData (ui w))
          = BannerType_value (banner_type banner).

Definition formOk (w : World) : Prop :=
  projectType (formData (ui w)) = bannerType (formData (ui w))
  /\ (showForm (ui w) = true ->
      exists t, bannerType (formData (ui w)) = BannerType_value t)
  /\ Forall goodBody (sent w)
  /\ inFlight w = (if loading (ui w) then 1 else 0)%nat.

End BannersSystemScenarios.

Module ReminderScenarios.
Import Browser Reminder.

(** A desktop browser whose [localStorage] holds an install attempt made at
    the first second of the clock, and no dismissal. *)
Definition desktopWithAttempt : Browser :=
  mkBrowser "Mozilla/5.0 (Windows NT 10.0; Win64; x64)" true true
    None (Some (Stamp (Some 1000))) None true true None true true.

(** The three bytes of the Kelvin sign (U+212A) in UTF-8. *)
Definition isKelvin (c1 c2 c3 : ascii) : bool :=
  (Nat.eqb (nat_of_ascii c1) 226 && Nat.eqb (nat_of_ascii c2) 132
   && Nat.eqb (nat_of_ascii c3) 170)%bool.

(** One lower-casing a platform could have, to try the statements on: it
    maps [A]..[Z] to [a]..[z] and, beyond ASCII, the Kelvin sign to [k],
    as the Unicode case mapping does. *)
Fixpoint lowerWithKelvin (s : string) : string :=
  match s with
  | EmptyString => EmptyString
  | String c s1 =>
      match s1 with
      | String c2 (String c3 s3) =>
          if isKelvin c c2 c3 then String "k" (lowerWithKelvin s3)
          else String (lowerAscii c) (lowerWithKelvin s1)
      | _ => String (lowerAscii c) (lowerWithKelvin s1)
      end
  end.

(** A user agent that spells BlackBerry with a Kelvin sign for its [k]. *)
Definition kelvinBlackberry : string :=
  String.append "Mozilla/5.0 (Blac"
    (String (ascii_of_nat 226) (String (ascii_of_nat 132)
       (String (ascii_of_nat 170) "Berry; U)"))).

(** A literal without the first byte of the Kelvin sign. *)
Definition plain (lit : string) : Prop :=
  forall c, In c (list_ascii_of_string lit) ->
            Nat.eqb (nat_of_ascii c) 226 = false.

End ReminderScenarios.

Module PwaScenarios.
Import Browser Pwa.

(** An Android phone with empty storages. *)
Definition androidPhone : Browser :=
  mkBrowser "Mozilla/5.0 (Linux; Android 13)" true true
    None None None true true None true true.

Definition isDownloadAwait (k : Awaiting) : bool :=
  match k with InDownloadApk => true | InInstallPWA => false end.

(** What the run of the banner keeps fixed in a browser [b]: the user
    agent and every [localStorage] entry the reminder reads, but for the
    install attempt; the help box is only there once a download has been
    started; and on a device that is not Android also the install attempt
    is kept, with nothing fetched, nothing awaited from a fetch, no help
    box and no download. *)
Definition keeps (b : Browser) (w : World) : Prop :=
  userAgent (browser w) = userAgent b
  /\ localReadable (browser w) = localReadable b
  /\ reminderDismissed (browser w) = reminderDismissed b
  /\ (showInstallHelp (ui w) = true -> navigations w <> [])
  /\ (isAndroid (userAgent b) = false ->
      apkDownloadAttempted (browser w) = apkDownloadAttempted b
      /\ filter isDownloadAwait (inFlight w) = []
      /\ showInstallHelp (ui w) = false
      /\ sent w = []
      /\ navigations w = []).






(** The user presses Download App and the server answers, five seconds
    into the clock, that the file is there. *)
Definition startedDownload : list Event :=
  [ DownloadClick; InfoSettled 0 5000 (Info true true) ].

(** What the download banner needs of the platform's
    [String.prototype.toLowerCase] for its user-agent test to agree with
    the reminder's: where [/android/i] matches a string, it still matches
    the lower-cased string.  (The builtin maps a run of ASCII letters to
    the same run in lower case, so it has the property.) *)
Definition keepsAndroid (toLowerCase : string -> string) : Prop :=
  forall ua : string,
    occursIn "android" (foldCase ua) = true ->
    occursIn "android" (foldCase (toLowerCase ua)) = true.

End PwaScenarios.

(* ================================================================== *)
(** ** Properties of the shared primitives *)
(* ================================================================== *)

Lemma truthy_true (s : string) : truthy s = true <-> s <> "".
Proof.
  unfold truthy. rewrite negb_true_iff. apply String.eqb_neq.
Qed.

Lemma truthy_false (s : string) : truthy s = false <-> s = "".
Proof.
  unfold truthy. rewrite negb_false_iff. apply String.eqb_eq.
Qed.

(** [e || d] is either the server's non-empty message or the default. *)
Lemma orDefault_cases (e : option string) (d : string) :
  orDefault e d = d \/ (exists m, e = Some m /\ m <> "" /\ orDefault e d = m).
Proof.
  destruct e as [m|]; simpl; [|now left].
  destruct (truthy m) eqn:T; [|now left].
  right. exists m. rewrite truthy_true in T. auto.
Qed.

Lemma filter_remove_nth_other {A} (p : A -> bool) (k : nat) (l : list A) (x : A) :
  nth_error l k = Some x -> p x = false ->
  filter p (remove_nth k l) = filter p l.
Proof.
  revert k. induction l as [|y t IH]; intros [|k] H Hp; simpl in *;
    try discriminate.
  - injection H as ->. now rewrite Hp.
  - rewrite (IH k H Hp). reflexivity.
Qed.

Lemma filter_remove_nth_hit {A} (p : A -> bool) (k : nat) (l : list A) (x : A) :
  nth_error l k = Some x -> p x = true ->
  S (List.length (filter p (remove_nth k l))) = List.length (filter p l).
Proof.
  revert k. induction l as [|y t IH]; intros [|k] H Hp; simpl in *;
    try discriminate.
  - injection H as ->. now rewrite Hp.
  - destruct (p y); simpl; rewrite (IH k H Hp); reflexivity.
Qed.

(* ================================================================== *)
(** ** Properties of the admin view *)
(* ================================================================== *)

Module AdminFacts.
Import Admin AdminScenarios.

(** Closed statements about concrete runs are settled by running the
    model. *)
Ltac conjuncts := repeat match goal with |- _ /\ _ => split end.
Ltac by_running := conjuncts; vm_compute; try reflexivity.

(** *** The display range (claim C9) *)

(** C9. For every page number and total, the "Showing .. to .." text of the
    render is [offsetStart = (page-1)*pageSize+1] and
    [offsetEnd = min(page*pageSize, total)] with [pageSize = 10], the limit
    sent with every list request; with [total = 23], page 2 gives (11, 20)
    and page 3 gives (21, 23). *)
Theorem C9_display_range :
  forall r : State,
    requestedLimit r = Some (toString 10)
    /\ showingFrom r = spec_offsetStart (currentPage r) 10
    /\ showingTo r = spec_offsetEnd (currentPage r) 10 (total r)
    /\ showingTo r - showingFrom r + 1 <= 10
    /\ (total r = 23 ->
        (currentPage r = 2 -> showingFrom r = 11 /\ showingTo r = 20)
        /\ (currentPage r = 3 -> showingFrom r = 21 /\ showingTo r = 23)).
Proof.
  intros r. split; [reflexivity|].
  unfold showingFrom, showingTo, spec_offsetStart, spec_offsetEnd.
  repeat split; try reflexivity; try lia; intros; subst;
    match goal with H : currentPage _ = _ |- _ => rewrite H end;
    try match goal with H : total _ = _ |- _ => rewrite H end; reflexivity.
Qed.

(** *** Query parameters of the list request (claim C3) *)

Lemma listParams_entries (r : State) (k v : string) :
  In (k, v) (listParams r) <->
    (k = "page" /\ v = toString (currentPage r))
    \/ (k = "limit" /\ v = "10")
    \/ (k = "search" /\ v = search r /\ search r <> "")
    \/ (k = "status" /\ v = filterStatus r /\ filterStatus r <> "")
    \/ (k = "bannerType" /\ v = filterBannerType r
        /\ filterBannerType r <> "").
Proof.
  unfold listParams.
  destruct (truthy (search r)) eqn:Hs;
  destruct (truthy (filterStatus r)) eqn:Hf;
  destruct (truthy (filterBannerType r)) eqn:Hb;
  rewrite ?truthy_true, ?truthy_false in *; simpl;
  (split;
   [ intros H;
     repeat (destruct H as [H|H]; [injection H as <- <-; tauto|]);
     contradiction
   | intros H; repeat (destruct H as [H|H]);
     try (destruct H as (-> & -> & H)); try (destruct H as (-> & ->));
     tauto ]).
Qed.

Lemma listParams_keys_distinct (r : State) :
  NoDup (map fst (listParams r)).
Proof.
  unfold listParams.
  destruct (truthy (search r)), (truthy (filterStatus r)),
    (truthy (filterBannerType r)); simpl;
    repeat (constructor; [simpl; intuition discriminate|]); constructor.
Qed.

(** C3. For every query state, [refresh()] (the synchronous part of
    [fetchSubmissions]) sends exactly one list request whose parameters are
    [page] (the current page) and [limit=10] always, and [search], [status],
    [bannerType] each if and only if that field is non-empty, with the
    field's value; no key occurs twice and an empty filter contributes no
    parameter. *)
Theorem C3_list_query_parameters :
  forall (r : State) (w : World),
    exists ps,
      sent (fetchSubmissions r w) = sent w ++ [GetSubmissions ps]
      /\ NoDup (map fst ps)
      /\ forall k v,
           In (k, v) ps <->
             (k = "page" /\ v = toString (currentPage r))
             \/ (k = "limit" /\ v = "10")
             \/ (k = "search" /\ v = search r /\ search r <> "")
             \/ (k = "status" /\ v = filterStatus r /\ filterStatus r <> "")
             \/ (k = "bannerType" /\ v = filterBannerType r
                 /\ filterBannerType r <> "").
Proof.
  intros r w. exists (listParams r). split; [reflexivity|].
  split; [apply listParams_keys_distinct|].
  intros k v. apply listParams_entries.
Qed.

(** The spec's scenario: from [{search:"", status:"new", bannerType:"",
    page:1}] the filter is changed to ["contacted"]; the request that
    follows has [status=contacted] and nothing else about the status. *)
Example listParams_after_status_change :
  let w0 := dispatch mounted (StatusFilterSelect "new") in
  let w1 := dispatch w0 (StatusFilterSelect "contacted") in
  sent w1 = sent w0
            ++ [GetSubmissions
                  [("page", "1"); ("limit", "10"); ("status", "contacted")];
                GetStatistics].
Proof. reflexivity. Qed.

(** *** What the effect leaves alone *)

(** Starting the two fetches only raises [loading]. *)
Lemma useEffect_ui (prev : State) (w : World) :
  ui (useEffect prev w) = ui w \/ ui (useEffect prev w) = ui (setLoading true w).
Proof.
  unfold useEffect. destruct (depsChanged prev (ui w)); [right|left]; reflexivity.
Qed.

Lemma useEffect_currentPage prev w :
  currentPage (ui (useEffect prev w)) = currentPage (ui w).
Proof. destruct (useEffect_ui prev w) as [-> | ->]; reflexivity. Qed.

Lemma useEffect_totalPages prev w :
  totalPages (ui (useEffect prev w)) = totalPages (ui w).
Proof. destruct (useEffect_ui prev w) as [-> | ->]; reflexivity. Qed.

(** *** Page after a filter change (claim C1) *)

(** C1 (the code departs from the claim). Typing in the search box sets the
    page to 1, but choosing a status or banner-type filter leaves the page
    where it was: the two [Select]s call the bare setters.  On page 3 of 5,
    selecting status ["new"] keeps page 3 and the list request that follows
    asks for [page=3]; when only 2 pages match, the view is left on page 3
    of 2 with neither rows nor pagination buttons. *)
Theorem C1_filter_select_keeps_page :
  (forall w v, currentPage (ui (dispatch w (SearchInput v))) = 1)
  /\ (forall w v,
        currentPage (ui (dispatch w (StatusFilterSelect v)))
        = currentPage (ui w))
  /\ (forall w v,
        currentPage (ui (dispatch w (BannerTypeFilterSelect v)))
        = currentPage (ui w))
  /\ currentPage (ui onPage3) = 3
  /\ currentPage (ui (dispatch onPage3 (StatusFilterSelect "new"))) = 3
  /\ currentPage (ui (dispatch onPage3 (BannerTypeFilterSelect "commercial")))
     = 3
  /\ sent (dispatch onPage3 (StatusFilterSelect "new"))
     = sent onPage3
       ++ [GetSubmissions [("page", "3"); ("limit", "10"); ("status", "new")];
           GetStatistics]
  /\ currentPage (ui outOfRange) = 3
  /\ totalPages (ui outOfRange) = 2
  /\ tableShown (ui outOfRange) = false
  /\ paginationShown (ui outOfRange) = false.
Proof.
  split; [|split; [|split]];
    [ intros; unfold dispatch; now rewrite useEffect_currentPage .. | ].
  by_running.
Qed.

(** *** Page buttons (claim C2) *)

(** C2, as stated, fails: after the stale response the view shows page 5 of
    2 with the pagination row rendered and "previous" enabled; pressing it
    applies [max(1, 5 - 1) = 4], which is outside [1, 2]. *)
Lemma C2_previous_click_leaves_range :
  currentPage (ui afterStaleResponse) = 5
  /\ totalPages (ui afterStaleResponse) = 2
  /\ paginationShown (ui afterStaleResponse) = true
  /\ previousDisabled (ui afterStaleResponse) = false
  /\ currentPage (ui (dispatch afterStaleResponse PreviousClick)) = 4
  /\ totalPages (ui (dispatch afterStaleResponse PreviousClick)) = 2
  /\ ~ (1 <= currentPage (ui (dispatch afterStaleResponse PreviousClick))
        <= totalPages (ui (dispatch afterStaleResponse PreviousClick))).
Proof.
  by_running.
  intros [_ H]. apply H. reflexivity.
Qed.

(** The page never drops below 1: the search box sets 1, "previous" is
    floored at 1, and "next" is only rendered when [totalPages > 1]. *)
Lemma currentPage_floor_handle (w : World) (e : Event) :
  1 <= currentPage (ui w) -> 1 <= currentPage (ui (handle e w)).
Proof.
  intros H.
  destruct e as [v|v|v| | |i|i v|i c|b|k resp]; simpl; try exact H;
    try lia.
  - destruct (paginationShown _ && negb (previousDisabled _)); simpl; lia.
  - destruct (paginationShown (ui w) && negb (nextDisabled (ui w))) eqn:G;
      [|exact H].
    unfold paginationShown in G.
    apply andb_true_iff in G as [G _]. apply andb_true_iff in G as [_ G].
    apply Z.gtb_lt in G. simpl. lia.
  - destruct (nth_error _ i); [|exact H]. destruct (tableShown _); exact H.
  - destruct (nth_error _ i); [|exact H].
    destruct (tableShown _ && negb _); exact H.
  - destruct (nth_error _ i); [|exact H].
    destruct (tableShown _ && negb _); [|exact H]. destruct c; exact H.
  - destruct (nth_error (inFlight w) k) as [[| |r0|r0]|];
      destruct resp as [o|o|o]; try exact H; destruct o; exact H.
Qed.

Lemma currentPage_floor_run (evs : list Event) (w : World) :
  1 <= currentPage (ui w) -> 1 <= currentPage (ui (run evs w)).
Proof.
  revert w. induction evs as [|e evs IH]; intros w H; simpl; [exact H|].
  apply IH. unfold dispatch. rewrite useEffect_currentPage.
  apply currentPage_floor_handle, H.
Qed.

(** Where the page is set: an event leaves it alone, or it is the search
    box (1), or a reacting "previous" or "next" button. *)
Lemma currentPage_change_cases (w : World) (e : Event) :
  currentPage (ui (dispatch w e)) = currentPage (ui w)
  \/ (exists v, e = SearchInput v /\ currentPage (ui (dispatch w e)) = 1)
  \/ (e = PreviousClick /\ previousReacts (ui w) = true
      /\ currentPage (ui (dispatch w e)) = Z.max 1 (currentPage (ui w) - 1))
  \/ (e = NextClick /\ nextReacts (ui w) = true
      /\ currentPage (ui (dispatch w e))
         = Z.min (totalPages (ui w)) (currentPage (ui w) + 1)).
Proof.
  unfold dispatch. rewrite useEffect_currentPage.
  unfold previousReacts, nextReacts.
  destruct e as [v|v|v| | |i|i v|i c|b|k resp]; simpl;
    try (left; reflexivity).
  - right. left. exists v. split; reflexivity.
  - destruct (paginationShown (ui w) && negb (previousDisabled (ui w)));
      [|now left]. right. right. left. repeat split.
  - destruct (paginationShown (ui w) && negb (nextDisabled (ui w)));
      [|now left]. right. right. right. repeat split.
  - destruct (nth_error _ i); [|now left]. destruct (tableShown _); now left.
  - destruct (nth_error _ i); [|now left].
    destruct (tableShown _ && negb _); now left.
  - destruct (nth_error _ i); [|now left].
    destruct (tableShown _ && negb _); [|now left]. destruct c; now left.
  - destruct (nth_error (inFlight w) k) as [[| |r0|r0]|];
      destruct resp as [o|o|o]; try (left; reflexivity);
      destruct o; left; reflexivity.
Qed.

(** [totalPages] is only written by a successful list response. *)
Lemma totalPages_change_cases (w : World) (e : Event) :
  totalPages (ui (dispatch w e)) = totalPages (ui w)
  \/ exists k d,
       e = Settle k (ListResponse (JsonOk d))
       /\ totalPages (ui (dispatch w e)) = pagination_pages d.
Proof.
  unfold dispatch. rewrite useEffect_totalPages.
  destruct e as [v|v|v| | |i|i v|i c|b|k resp]; simpl;
    try (left; reflexivity).
  - destruct (paginationShown _ && negb (previousDisabled _)); now left.
  - destruct (paginationShown _ && negb (nextDisabled _)); now left.
  - destruct (nth_error _ i); [|now left]. destruct (tableShown _); now left.
  - destruct (nth_error _ i); [|now left].
    destruct (tableShown _ && negb _); now left.
  - destruct (nth_error _ i); [|now left].
    destruct (tableShown _ && negb _); [|now left]. destruct c; now left.
  - destruct (nth_error (inFlight w) k) as [[| |r0|r0]|];
      destruct resp as [o|o|o]; try (left; reflexivity);
      destruct o as [|err|d]; try (left; reflexivity).
    right. exists k, d. split; reflexivity.
Qed.

(** Until a list response has succeeded, the view is on page 1 of 1. *)
Lemma page_1_of_1_run (evs : list Event) (w : World) :
  totalPages (ui w) = 1 -> currentPage (ui w) = 1 ->
  existsb isListSuccess evs = false ->
  totalPages (ui (run evs w)) = 1 /\ currentPage (ui (run evs w)) = 1.
Proof.
  revert w. induction evs as [|e evs IH]; intros w T P N; simpl; [auto|].
  simpl in N. apply orb_false_iff in N as [Ne Nevs].
  assert (T' : totalPages (ui (dispatch w e)) = 1).
  { destruct (totalPages_change_cases w e) as [-> | (k & d & -> & _)];
      [exact T|discriminate]. }
  apply IH; [exact T'| |exact Nevs].
  destruct (currentPage_change_cases w e)
    as [-> | [(v & _ & ->) | [(_ & _ & ->) | (_ & _ & ->)]]];
    rewrite ?T, ?P; auto.
Qed.

(** A reacting page button sits in a rendered pagination row, so there are
    at least two pages. *)
Lemma paginationShown_totalPages (r : State) :
  paginationShown r = true -> 1 < totalPages r.
Proof.
  unfold paginationShown. intros H.
  apply andb_true_iff in H as [_ H]. now apply Z.gtb_lt in H.
Qed.

(** C2 (amended). The page is set in three places only: the search box
    sets it to 1, "previous" applies [max(1, page - 1)] and "next" applies
    [min(totalPages, page + 1)]; the buttons react only in a rendered
    pagination row.  [totalPages] is written only by a successful list
    response, and until one has arrived the view is on page 1 of 1.  In
    every state the mounted view can reach the page is at least 1; after
    "next" has reacted the page lies in [1, totalPages]; after "previous"
    has reacted it lies in [1, totalPages] exactly when the page before was
    at most [totalPages + 1]. *)
Theorem C2_page_buttons_stay_in_range :
  forall (evs : list Event) (e : Event),
    1 <= currentPage (ui (run evs mounted))
    /\ (currentPage (ui (dispatch (run evs mounted) e))
        = currentPage (ui (run evs mounted))
        \/ (exists v,
              e = SearchInput v
              /\ currentPage (ui (dispatch (run evs mounted) e)) = 1)
        \/ (e = PreviousClick
            /\ previousReacts (ui (run evs mounted)) = true
            /\ currentPage (ui (dispatch (run evs mounted) e))
               = Z.max 1 (currentPage (ui (run evs mounted)) - 1))
        \/ (e = NextClick
            /\ nextReacts (ui (run evs mounted)) = true
            /\ currentPage (ui (dispatch (run evs mounted) e))
               = Z.min (totalPages (ui (run evs mounted)))
                   (currentPage (ui (run evs mounted)) + 1)))
    /\ (totalPages (ui (dispatch (run evs mounted) e))
        = totalPages (ui (run evs mounted))
        \/ exists k d,
             e = Settle k (ListResponse (JsonOk d))
             /\ totalPages (ui (dispatch (run evs mounted) e))
                = pagination_pages d)
    /\ (existsb isListSuccess evs = false ->
        totalPages (ui (run evs mounted)) = 1
        /\ currentPage (ui (run evs mounted)) = 1)
    /\ (nextReacts (ui (run evs mounted)) = true ->
        1 <= currentPage (ui (dispatch (run evs mounted) NextClick))
          <= totalPages (ui (dispatch (run evs mounted) NextClick)))
    /\ (previousReacts (ui (run evs mounted)) = true ->
        (1 <= currentPage (ui (dispatch (run evs mounted) PreviousClick))
           <= totalPages (ui (dispatch (run evs mounted) PreviousClick))
         <-> currentPage (ui (run evs mounted))
             <= totalPages (ui (run evs mounted)) + 1)).
Proof.
  intros evs e.
  assert (F : 1 <= currentPage (ui (run evs mounted)))
    by (apply currentPage_floor_run; simpl; lia).
  set (w := run evs mounted) in *.
  split; [exact F|].
  split; [apply currentPage_change_cases|].
  split; [apply totalPages_change_cases|].
  split; [intros N; apply page_1_of_1_run; auto|].
  split.
  - intros R. unfold dispatch.
    rewrite useEffect_totalPages, useEffect_currentPage.
    unfold nextReacts in R. simpl. rewrite R. simpl.
    apply andb_true_iff in R as [R _].
    apply paginationShown_totalPages in R. lia.
  - intros R. unfold dispatch.
    rewrite useEffect_totalPages, useEffect_currentPage.
    unfold previousReacts in R. simpl. rewrite R. simpl.
    apply andb_true_iff in R as [R _].
    apply paginationShown_totalPages in R. lia.
Qed.

(** On page 3 of 5 both buttons react: "next" leads to page 4 and
    "previous" to page 2, both within [1, 5]. *)
Lemma C2_page_buttons_on_page3 :
  (currentPage (ui (dispatch onPage3 NextClick)) = 4
   /\ currentPage (ui (dispatch onPage3 PreviousClick)) = 2)
  /\ 1 <= currentPage (ui (dispatch onPage3 NextClick))
       <= totalPages (ui (dispatch onPage3 NextClick))
  /\ 1 <= currentPage (ui (dispatch onPage3 PreviousClick))
       <= totalPages (ui (dispatch onPage3 PreviousClick)).
Proof.
  split; [split; vm_compute; reflexivity|].
  destruct (C2_page_buttons_stay_in_range toPage3 NextClick)
    as (_ & _ & _ & _ & N & P).
  split.
  - apply N. vm_compute. reflexivity.
  - apply P; [vm_compute; reflexivity|]. vm_compute. discriminate.
Defined.

(** *** Failure of the list fetch (claim C4) *)

Lemma useEffect_cases (prev : State) (w : World) :
  useEffect prev w = w
  \/ useEffect prev w = (fetchSubmissions (ui w) ;; fetchStatistics) w.
Proof.
  unfold useEffect. destruct (depsChanged prev (ui w)); auto.
Qed.

(** A settled request changes none of the effect's dependencies, so no new
    fetch follows it. *)
Lemma useEffect_same_deps (prev : State) (w : World) :
  search (ui w) = search prev ->
  filterStatus (ui w) = filterStatus prev ->
  filterBannerType (ui w) = filterBannerType prev ->
  currentPage (ui w) = currentPage prev ->
  useEffect prev w = w.
Proof.
  intros H1 H2 H3 H4. unfold useEffect, depsChanged.
  now rewrite H1, H2, H3, H4, !String.eqb_refl, Z.eqb_refl.
Qed.

Lemma dispatch_settle_list (w : World) (k : nat) (o : Outcome ListData) :
  nth_error (inFlight w) k = Some InFetchSubmissions ->
  dispatch w (Settle k (ListResponse o))
  = fetchSubmissions_settled o (dropInFlight k w).
Proof.
  intros H. unfold dispatch. simpl. rewrite H.
  apply useEffect_same_deps; destruct o; reflexivity.
Qed.

Lemma dispatch_settle_statistics (w : World) (k : nat) (o : Outcome Statistics) :
  nth_error (inFlight w) k = Some InFetchStatistics ->
  dispatch w (Settle k (StatisticsResponse o))
  = fetchStatistics_settled o (dropInFlight k w).
Proof.
  intros H. unfold dispatch. simpl. rewrite H.
  apply useEffect_same_deps; destruct o; reflexivity.
Qed.

Lemma dispatch_settle_status (w : World) (k : nat) (r : State)
  (o : Outcome unit) :
  nth_error (inFlight w) k = Some (InHandleStatusChange r) ->
  dispatch w (Settle k (PlainResponse o))
  = handleStatusChange_settled r o (dropInFlight k w).
Proof.
  intros H. unfold dispatch. simpl. rewrite H.
  apply useEffect_same_deps; destruct o; reflexivity.
Qed.

Lemma dispatch_settle_delete (w : World) (k : nat) (r : State)
  (o : Outcome unit) :
  nth_error (inFlight w) k = Some (InHandleDelete r) ->
  dispatch w (Settle k (PlainResponse o))
  = handleDelete_settled r o (dropInFlight k w).
Proof.
  intros H. unfold dispatch. simpl. rewrite H.
  apply useEffect_same_deps; destruct o; reflexivity.
Qed.

Lemma failureToast_fail {A} (e : option string) (d : string) :
  failureToast (@JsonFail A e) d (mkToast "Error" (orDefault e d) Destructive).
Proof.
  repeat split; simpl.
  destruct (orDefault_cases e d) as [H | (m & -> & Hm & H)]; [now left|].
  right. exists m. auto.
Qed.

Lemma failureToast_rejected {A} (d : string) :
  failureToast (@Rejected A) d (mkToast "Error" d Destructive).
Proof. repeat split; simpl. now left. Qed.

(** C4. For every prior state, when the list fetch of [refresh()] fails (a
    rejected promise or a body whose [success] is falsy), the submissions
    page, the total count and the total-pages value keep their prior
    values, and exactly one notification is produced: an error toast with
    the generic text or the server-supplied message.  The same holds when
    the failure is delivered to the mounted component as an event. *)
Theorem C4_failed_list_fetch_keeps_data :
  forall (o : Outcome ListData) (w : World),
    failed o = true ->
    (submissions (ui (fetchSubmissions_settled o w)) = submissions (ui w)
     /\ total (ui (fetchSubmissions_settled o w)) = total (ui w)
     /\ totalPages (ui (fetchSubmissions_settled o w)) = totalPages (ui w)
     /\ exists t,
          toasts (fetchSubmissions_settled o w) = toasts w ++ [t]
          /\ failureToast o "Failed to fetch submissions" t)
    /\ forall k,
         nth_error (inFlight w) k = Some InFetchSubmissions ->
         submissions (ui (dispatch w (Settle k (ListResponse o))))
         = submissions (ui w)
         /\ total (ui (dispatch w (Settle k (ListResponse o)))) = total (ui w)
         /\ totalPages (ui (dispatch w (Settle k (ListResponse o))))
            = totalPages (ui w)
         /\ exists t,
              toasts (dispatch w (Settle k (ListResponse o)))
              = toasts w ++ [t]
              /\ failureToast o "Failed to fetch submissions" t.
Proof.
  intros o w Hf.
  assert (G : forall w0,
    submissions (ui (fetchSubmissions_settled o w0)) = submissions (ui w0)
    /\ total (ui (fetchSubmissions_settled o w0)) = total (ui w0)
    /\ totalPages (ui (fetchSubmissions_settled o w0)) = totalPages (ui w0)
    /\ exists t,
         toasts (fetchSubmissions_settled o w0) = toasts w0 ++ [t]
         /\ failureToast o "Failed to fetch submissions" t).
  { intros w0. destruct o as [|e|d]; try discriminate; simpl;
      (split; [reflexivity|]); (split; [reflexivity|]);
      (split; [reflexivity|]); eexists; (split; [reflexivity|]).
    - apply failureToast_rejected.
    - apply failureToast_fail. }
  split; [apply G|].
  intros k Hk. rewrite (dispatch_settle_list w k o Hk).
  apply (G (dropInFlight k w)).
Qed.

(** The first list fetch of the mounted component is answered with
    [{ success: false, error: "Unauthorized" }]. *)
Lemma C4_failed_list_fetch_unauthorized :
  toasts (dispatch mounted
            (Settle 0 (ListResponse (JsonFail (Some "Unauthorized")))))
  = [mkToast "Error" "Unauthorized" Destructive]
  /\ totalPages (ui (dispatch mounted
                       (Settle 0
                          (ListResponse (JsonFail (Some "Unauthorized"))))))
     = totalPages (ui mounted).
Proof.
  split; [vm_compute; reflexivity|].
  apply (C4_failed_list_fetch_keeps_data
           (JsonFail (Some "Unauthorized")) mounted); reflexivity.
Defined.

(** *** The in-memory list only changes by a successful list response *)

Lemma useEffect_submissions prev w :
  submissions (ui (useEffect prev w)) = submissions (ui w).
Proof. destruct (useEffect_ui prev w) as [-> | ->]; reflexivity. Qed.

Lemma submissions_change_only_by_list_response (w : World) (e : Event) :
  submissions (ui (dispatch w e)) = submissions (ui w)
  \/ exists k d,
       e = Settle k (ListResponse (JsonOk d))
       /\ submissions (ui (dispatch w e)) = data_submissions d.
Proof.
  unfold dispatch. rewrite useEffect_submissions.
  destruct e as [v|v|v| | |i|i v|i c|b|k resp]; simpl;
    try (left; reflexivity).
  - destruct (paginationShown _ && negb (previousDisabled _)); now left.
  - destruct (paginationShown _ && negb (nextDisabled _)); now left.
  - destruct (nth_error _ i); [|now left].
    destruct (tableShown _); now left.
  - destruct (nth_error _ i); [|now left].
    destruct (tableShown _ && negb _); now left.
  - destruct (nth_error _ i); [|now left].
    destruct (tableShown _ && negb _); [|now left].
    destruct c; now left.
  - destruct (nth_error (inFlight w) k) as [[| |r0|r0]|];
      destruct resp as [o|o|o]; try (left; reflexivity);
      destruct o as [|err|d]; try (left; reflexivity).
    right. exists k, d. split; reflexivity.
Qed.

(** *** Status change (claim C5) *)

(** C5. [changeStatus(id, newStatus)] never writes into the in-memory list:
    neither the call nor its continuation changes [submissions] (which only
    a successful list response replaces).  When the store confirms, the
    continuation shows a success toast and starts [refresh()] and a
    statistics fetch; when the call fails, it sends nothing, every row keeps
    its displayed status, and exactly one error toast is produced. *)
Theorem C5_status_change_waits_for_store :
  forall (r : State) (id : string) (st : Status) (o : Outcome unit)
         (w : World),
    (submissions (ui (handleStatusChange r id st w)) = submissions (ui w)
     /\ sent (handleStatusChange r id st w) = sent w ++ [PutStatus id st]
     /\ toasts (handleStatusChange r id st w) = toasts w)
    /\ submissions (ui (handleStatusChange_settled r o w))
       = submissions (ui w)
    /\ match o with
       | JsonOk _ =>
           sent (handleStatusChange_settled r o w)
           = sent w ++ [GetSubmissions (listParams r); GetStatistics]
           /\ inFlight (handleStatusChange_settled r o w)
              = inFlight w ++ [InFetchSubmissions; InFetchStatistics]
           /\ toasts (handleStatusChange_settled r o w)
              = toasts w
                ++ [mkToast "Success" "Status updated successfully" Default]
       | _ =>
           sent (handleStatusChange_settled r o w) = sent w
           /\ map status (submissions (ui (handleStatusChange_settled r o w)))
              = map status (submissions (ui w))
           /\ exists t,
                toasts (handleStatusChange_settled r o w) = toasts w ++ [t]
                /\ failureToast o "Failed to update status" t
       end
    /\ forall e,
         submissions (ui (dispatch w e)) = submissions (ui w)
         \/ exists k d,
              e = Settle k (ListResponse (JsonOk d))
              /\ submissions (ui (dispatch w e)) = data_submissions d.
Proof.
  intros r id st o w.
  split; [repeat split|]. split; [destruct o; reflexivity|].
  split; [|apply submissions_change_only_by_list_response].
  destruct o as [|err|d]; simpl.
  - split; [reflexivity|]. split; [reflexivity|].
    eexists; split; [reflexivity|apply failureToast_rejected].
  - split; [reflexivity|]. split; [reflexivity|].
    eexists; split; [reflexivity|apply failureToast_fail].
  - rewrite <- !app_assoc. repeat split.
Qed.

(** *** Statistics fetch (claim C6) *)

(** C6, as stated, fails in its last part: a non-success response to the
    statistics request is not logged.  Answering the first statistics
    request of the mounted component with [{ success: false }] leaves the
    console exactly as it was (the whole world, but for the settled
    request). *)
Lemma C6_unsuccessful_response_not_logged :
  failed (@JsonFail Statistics None) = true
  /\ console (dispatch mounted (Settle 1 (StatisticsResponse (JsonFail None))))
     = console mounted
  /\ console (fetchStatistics_settled (JsonFail None) mounted) = []
  /\ dispatch mounted (Settle 1 (StatisticsResponse (JsonFail None)))
     = dropInFlight 1 mounted.
Proof. by_running. Qed.

(** C6 (amended). A failed statistics fetch produces no notification,
    leaves the held statistics and all other component state unchanged and
    sends nothing; a rejected fetch is logged with [console.error], a
    non-success response is not logged.  The list refresh is not affected:
    its request stays in flight when the statistics request settles, and it
    completes to the same component state whether the statistics failure
    arrives before it, after it, or not at all. *)
Theorem C6_statistics_failure_is_silent :
  forall (o : Outcome Statistics) (w : World),
    failed o = true ->
    toasts (fetchStatistics_settled o w) = toasts w
    /\ ui (fetchStatistics_settled o w) = ui w
    /\ statistics (ui (fetchStatistics_settled o w)) = statistics (ui w)
    /\ sent (fetchStatistics_settled o w) = sent w
    /\ inFlight (fetchStatistics_settled o w) = inFlight w
    /\ console (fetchStatistics_settled o w)
       = console w
         ++ match o with
            | Rejected => ["Error fetching statistics:"]
            | _ => []
            end
    /\ (forall lo : Outcome ListData,
          ui (fetchSubmissions_settled lo (fetchStatistics_settled o w))
          = ui (fetchSubmissions_settled lo w)
          /\ ui (fetchStatistics_settled o (fetchSubmissions_settled lo w))
             = ui (fetchSubmissions_settled lo w)
          /\ loading (ui (fetchSubmissions_settled lo
                            (fetchStatistics_settled o w))) = false)
    /\ forall k,
         nth_error (inFlight w) k = Some InFetchStatistics ->
         ui (dispatch w (Settle k (StatisticsResponse o))) = ui w
         /\ toasts (dispatch w (Settle k (StatisticsResponse o))) = toasts w
         /\ filter (fun a => negb (match a with
                                   | InFetchStatistics => true
                                   | _ => false end))
              (inFlight (dispatch w (Settle k (StatisticsResponse o))))
            = filter (fun a => negb (match a with
                                     | InFetchStatistics => true
                                     | _ => false end))
                (inFlight w).
Proof.
  intros o w Hf.
  destruct o as [|err|d]; try discriminate; simpl;
    rewrite ?app_nil_r;
    (repeat (split; [reflexivity|]));
    (split; [intros lo; destruct lo; repeat split|]);
    intros k Hk; rewrite (dispatch_settle_statistics w k _ Hk); simpl;
    (repeat (split; [reflexivity|]));
    apply (filter_remove_nth_other _ k _ _ Hk); reflexivity.
Qed.

(** Both first requests of the mounted component fail: the statistics
    request is rejected, the list request is answered. *)
Lemma C6_statistics_failure_on_mount :
  toasts (fetchStatistics_settled Rejected mounted) = toasts mounted
  /\ statistics (ui (dispatch mounted (Settle 1 (StatisticsResponse Rejected))))
     = None
  /\ submissions
       (ui (run [Settle 1 (StatisticsResponse Rejected);
                 Settle 0 (listOk tenLeads 50 5)] mounted))
     = tenLeads.
Proof.
  split; [|by_running].
  apply (C6_statistics_failure_is_silent Rejected mounted). reflexivity.
Defined.

(** *** Delete (claim C7) *)

(** What an event adds to the log of sent requests is either free of
    delete requests, or the event is a confirmed click on the delete button
    of a displayed row and the request is for that row. *)
Lemma delete_request_only_after_confirmation (w : World) (e : Event) :
  (exists l, sent (dispatch w e) = sent w ++ l
             /\ filter isDeleteRequest l = [])
  \/ exists i row,
       e = DeleteClick i true
       /\ nth_error (submissions (ui w)) i = Some row
       /\ sent (dispatch w e) = sent w ++ [DeleteSubmission (_id row)].
Proof.
  assert (E : forall w', (exists l, sent w' = sent w ++ l
                                    /\ filter isDeleteRequest l = []) ->
              exists l, sent (useEffect (ui w) w') = sent w ++ l
                        /\ filter isDeleteRequest l = []).
  { intros w' (l & Hl & Hn).
    destruct (useEffect_cases (ui w) w') as [-> | ->]; [eauto|].
    exists (l ++ [GetSubmissions (listParams (ui w')); GetStatistics]).
    simpl. rewrite Hl, filter_app, Hn, <- !app_assoc. split; reflexivity. }
  assert (N : exists l, sent w = sent w ++ l /\ filter isDeleteRequest l = []).
  { exists []. now rewrite app_nil_r. }
  unfold dispatch.
  destruct e as [v|v|v| | |i|i v|i c|b|k resp]; simpl;
    try (left; apply E; simpl; exact N).
  - left; apply E.
    destruct (paginationShown _ && negb (previousDisabled _)); exact N.
  - left; apply E.
    destruct (paginationShown _ && negb (nextDisabled _)); exact N.
  - left; apply E. destruct (nth_error _ i); [|exact N].
    destruct (tableShown _); exact N.
  - left; apply E. destruct (nth_error _ i) as [row|]; [|exact N].
    destruct (tableShown _ && negb _); [|exact N].
    exists [PutStatus (_id row) v]. auto.
  - destruct (nth_error (submissions (ui w)) i) as [row|] eqn:Hrow;
      [|left; apply E; exact N].
    destruct (tableShown _ && negb _); [|left; apply E; exact N].
    destruct c; [|left; apply E; exact N].
    right. exists i, row. split; [reflexivity|]. split; [assumption|].
    rewrite useEffect_same_deps; reflexivity.
  - left; apply E.
    destruct (nth_error (inFlight w) k) as [[| |r0|r0]|];
      destruct resp as [o|o|o]; try exact N;
      destruct o as [|err|d]; try exact N; simpl;
      exists [GetSubmissions (listParams r0); GetStatistics];
      rewrite <- app_assoc; auto.
Qed.

(** C7. [deleteSubmission(id)] sends the DELETE request only when the user
    has confirmed: declined, the handler returns with the whole world
    unchanged (no request, no state change); no event other than a
    confirmed delete click ever adds a delete request.  When the store
    confirms, the continuation starts [refresh()] and a statistics fetch;
    when the call fails, it sends nothing, the list (and so the row) is
    unchanged, and one error toast is shown. *)
Theorem C7_delete_requires_confirmation :
  forall (r : State) (id : string) (o : Outcome unit) (w : World),
    handleDelete r id false w = w
    /\ (sent (handleDelete r id true w) = sent w ++ [DeleteSubmission id]
        /\ submissions (ui (handleDelete r id true w)) = submissions (ui w))
    /\ submissions (ui (handleDelete_settled r o w)) = submissions (ui w)
    /\ match o with
       | JsonOk _ =>
           sent (handleDelete_settled r o w)
           = sent w ++ [GetSubmissions (listParams r); GetStatistics]
           /\ inFlight (handleDelete_settled r o w)
              = inFlight w ++ [InFetchSubmissions; InFetchStatistics]
           /\ toasts (handleDelete_settled r o w)
              = toasts w
                ++ [mkToast "Success" "Submission deleted successfully"
                      Default]
       | _ =>
           sent (handleDelete_settled r o w) = sent w
           /\ exists t,
                toasts (handleDelete_settled r o w) = toasts w ++ [t]
                /\ failureToast o "Failed to delete submission" t
       end
    /\ forall e,
         (exists l, sent (dispatch w e) = sent w ++ l
                    /\ filter isDeleteRequest l = [])
         \/ exists i row,
              e = DeleteClick i true
              /\ nth_error (submissions (ui w)) i = Some row
              /\ sent (dispatch w e) = sent w ++ [DeleteSubmission (_id row)].
Proof.
  intros r id o w.
  split; [reflexivity|]. split; [split; reflexivity|].
  split; [destruct o; reflexivity|].
  split; [|apply delete_request_only_after_confirmation].
  destruct o as [|err|d]; simpl.
  - split; [reflexivity|].
    eexists; split; [reflexivity|apply failureToast_rejected].
  - split; [reflexivity|].
    eexists; split; [reflexivity|apply failureToast_fail].
  - rewrite <- !app_assoc. repeat split.
Qed.

(** *** The two global flags (claim C8) *)

Lemma flagsAgree_mounted : flagsAgree mounted.
Proof. split; reflexivity. Qed.

(** A world that differs only in requests of the two fetch kinds and in
    state cells other than the flags agrees as before. *)
Lemma flagsAgree_transfer (w w' : World) :
  filter isStatusChange (inFlight w') = filter isStatusChange (inFlight w) ->
  filter isDelete (inFlight w') = filter isDelete (inFlight w) ->
  updating (ui w') = updating (ui w) ->
  deleting (ui w') = deleting (ui w) ->
  flagsAgree w -> flagsAgree w'.
Proof.
  unfold flagsAgree, statusChangesInFlight, deletesInFlight.
  intros -> -> -> ->. auto.
Qed.

Lemma flagsAgree_useEffect (prev : State) (w : World) :
  flagsAgree w -> flagsAgree (useEffect prev w).
Proof.
  destruct (useEffect_cases prev w) as [-> | ->]; [auto|].
  apply flagsAgree_transfer; simpl; try reflexivity;
    rewrite <- app_assoc, filter_app, app_nil_r; reflexivity.
Qed.

Lemma flagsAgree_handle (w : World) (e : Event) :
  flagsAgree w -> flagsAgree (handle e w).
Proof.
  intros I.
  destruct e as [v|v|v| | |i|i v|i c|b|k resp]; simpl;
    try (revert I; apply flagsAgree_transfer; reflexivity).
  - destruct (paginationShown _ && negb (previousDisabled _)); [|exact I].
    revert I; apply flagsAgree_transfer; reflexivity.
  - destruct (paginationShown _ && negb (nextDisabled _)); [|exact I].
    revert I; apply flagsAgree_transfer; reflexivity.
  - destruct (nth_error _ i) as [row|]; [|exact I].
    destruct (tableShown _); [|exact I].
    revert I; apply flagsAgree_transfer; reflexivity.
  - (* a status select of a row *)
    destruct (nth_error _ i) as [row|]; [|exact I].
    unfold statusSelectDisabled.
    destruct (tableShown _); simpl; [|exact I].
    destruct (updating (ui w)) eqn:U; simpl; [exact I|].
    destruct I as [Is Id]. rewrite U in Is.
    unfold flagsAgree, statusChangesInFlight, deletesInFlight in *; simpl.
    rewrite !filter_app, !length_app, Is; simpl.
    rewrite Nat.add_0_r. auto.
  - (* a delete click on a row *)
    destruct (nth_error _ i) as [row|]; [|exact I].
    unfold deleteButtonDisabled.
    destruct (tableShown _); simpl; [|exact I].
    destruct (deleting (ui w)) eqn:D; simpl; [exact I|].
    destruct c; simpl; [|exact I].
    destruct I as [Is Id]. rewrite D in Id.
    unfold flagsAgree, statusChangesInFlight, deletesInFlight in *; simpl.
    rewrite !filter_app, !length_app, Id; simpl.
    rewrite Nat.add_0_r. auto.
  - (* a request settles *)
    destruct (nth_error (inFlight w) k) as [[| |r0|r0]|] eqn:Hk;
      destruct resp as [o|o|o]; try exact I.
    + revert I; apply flagsAgree_transfer; destruct o; simpl;
        try reflexivity;
        apply (filter_remove_nth_other _ k _ _ Hk); reflexivity.
    + revert I; apply flagsAgree_transfer; destruct o; simpl;
        try reflexivity;
        apply (filter_remove_nth_other _ k _ _ Hk); reflexivity.
    + destruct I as [Is Id].
      pose proof (filter_remove_nth_hit isStatusChange k _ _ Hk eq_refl) as Hs.
      pose proof (filter_remove_nth_other isDelete k _ _ Hk eq_refl) as Hd.
      unfold flagsAgree, statusChangesInFlight, deletesInFlight in *.
      rewrite Is in Hs.
      destruct o; simpl;
        rewrite ?filter_app, ?length_app, ?app_nil_r, ?Hd; simpl;
        rewrite ?Nat.add_0_r;
        (split; [destruct (updating (ui w)); lia | exact Id]).
    + destruct I as [Is Id].
      pose proof (filter_remove_nth_hit isDelete k _ _ Hk eq_refl) as Hd.
      pose proof (filter_remove_nth_other isStatusChange k _ _ Hk eq_refl)
        as Hs.
      unfold flagsAgree, statusChangesInFlight, deletesInFlight in *.
      rewrite Id in Hd.
      destruct o; simpl;
        rewrite ?filter_app, ?length_app, ?app_nil_r, ?Hs; simpl;
        rewrite ?Nat.add_0_r;
        (split; [exact Is | destruct (deleting (ui w)); lia]).
Qed.

Lemma flagsAgree_dispatch (w : World) (e : Event) :
  flagsAgree w -> flagsAgree (dispatch w e).
Proof.
  intros I. unfold dispatch.
  apply flagsAgree_useEffect, flagsAgree_handle, I.
Qed.

Lemma flagsAgree_run (evs : list Event) (w : World) :
  flagsAgree w -> flagsAgree (run evs w).
Proof.
  revert w. induction evs as [|e evs IH]; intros w I; simpl; [exact I|].
  apply IH, flagsAgree_dispatch, I.
Qed.

(** C8. In every state the mounted component can reach, the single
    [updating] flag is true exactly while a status-change request is
    outstanding (there is never more than one), and then the status select
    of every displayed row is disabled; the flag is cleared when that
    request settles, whatever the outcome.  The single [deleting] flag does
    the same for delete requests and delete buttons.  A status change and a
    delete can be outstanding at the same time. *)
Theorem C8_global_mutation_flags :
  forall evs : list Event,
    ((0 < statusChangesInFlight (run evs mounted))%nat
     <-> updating (ui (run evs mounted)) = true)
    /\ (statusChangesInFlight (run evs mounted) <= 1)%nat
    /\ ((0 < statusChangesInFlight (run evs mounted))%nat ->
        forall row, In row (submissions (ui (run evs mounted))) ->
                    statusSelectDisabled (ui (run evs mounted)) row = true)
    /\ (forall k r o,
          nth_error (inFlight (run evs mounted)) k
          = Some (InHandleStatusChange r) ->
          updating (ui (dispatch (run evs mounted)
                          (Settle k (PlainResponse o)))) = false
          /\ statusChangesInFlight
               (dispatch (run evs mounted) (Settle k (PlainResponse o)))
             = 0%nat)
    /\ ((0 < deletesInFlight (run evs mounted))%nat
        <-> deleting (ui (run evs mounted)) = true)
    /\ (deletesInFlight (run evs mounted) <= 1)%nat
    /\ ((0 < deletesInFlight (run evs mounted))%nat ->
        forall row, In row (submissions (ui (run evs mounted))) ->
                    deleteButtonDisabled (ui (run evs mounted)) row = true)
    /\ (forall k r o,
          nth_error (inFlight (run evs mounted)) k
          = Some (InHandleDelete r) ->
          deleting (ui (dispatch (run evs mounted)
                          (Settle k (PlainResponse o)))) = false
          /\ deletesInFlight
               (dispatch (run evs mounted) (Settle k (PlainResponse o)))
             = 0%nat)
    /\ statusChangesInFlight (run statusThenDelete mounted) = 1%nat
    /\ deletesInFlight (run statusThenDelete mounted) = 1%nat.
Proof.
  intros evs.
  pose proof (flagsAgree_run evs mounted flagsAgree_mounted) as I.
  set (w := run evs mounted) in *.
  assert (S1 : forall k r o,
             nth_error (inFlight w) k = Some (InHandleStatusChange r) ->
             updating (ui (dispatch w (Settle k (PlainResponse o)))) = false
             /\ statusChangesInFlight
                  (dispatch w (Settle k (PlainResponse o))) = 0%nat).
  { intros k r o Hk.
    pose proof (flagsAgree_dispatch w (Settle k (PlainResponse o)) I) as [J _].
    assert (U : updating (ui (dispatch w (Settle k (PlainResponse o))))
                = false)
      by (rewrite (dispatch_settle_status w k r o Hk); destruct o; reflexivity).
    rewrite U in J. auto. }
  assert (D1 : forall k r o,
             nth_error (inFlight w) k = Some (InHandleDelete r) ->
             deleting (ui (dispatch w (Settle k (PlainResponse o)))) = false
             /\ deletesInFlight
                  (dispatch w (Settle k (PlainResponse o))) = 0%nat).
  { intros k r o Hk.
    pose proof (flagsAgree_dispatch w (Settle k (PlainResponse o)) I) as [_ J].
    assert (U : deleting (ui (dispatch w (Settle k (PlainResponse o))))
                = false)
      by (rewrite (dispatch_settle_delete w k r o Hk); destruct o; reflexivity).
    rewrite U in J. auto. }
  destruct I as [Is Id].
  unfold statusSelectDisabled, deleteButtonDisabled.
  split; [rewrite Is; destruct (updating (ui w)); split;
          intros; try lia; try discriminate; auto|].
  split; [rewrite Is; destruct (updating (ui w)); lia|].
  split; [rewrite Is; destruct (updating (ui w)); intros; try lia; auto|].
  split; [exact S1|].
  split; [rewrite Id; destruct (deleting (ui w)); split;
          intros; try lia; try discriminate; auto|].
  split; [rewrite Id; destruct (deleting (ui w)); lia|].
  split; [rewrite Id; destruct (deleting (ui w)); intros; try lia; auto|].
  split; [exact D1|].
  split; vm_compute; reflexivity.
Qed.

End AdminFacts.

(* ================================================================== *)
(** ** Properties of the lead-capture form *)
(* ================================================================== *)

Module BannersFacts.
Import Banners BannersScenarios.

Lemma missingRequired_false (d : AdvertisementSubmission) :
  missingRequired d = false <-> requiredFilled d.
Proof.
  unfold missingRequired, requiredFilled.
  rewrite !orb_false_iff, !negb_false_iff, !truthy_true. tauto.
Qed.

Lemma missingRequired_true (d : AdvertisementSubmission) :
  missingRequired d = true <-> ~ requiredFilled d.
Proof.
  rewrite <- missingRequired_false.
  destruct (missingRequired d); split; intros H; try reflexivity;
    try discriminate; try (intro; discriminate).
  exfalso. apply H. reflexivity.
Qed.

(** The validation never looks at [projectType], [budget] or
    [bannerType]. *)
Lemma missingRequired_ignores_optional (d : AdvertisementSubmission)
  (f : Field) (v : string) :
  f = Key_projectType \/ f = Key_budget \/ f = Key_bannerType ->
  missingRequired (assign f v d) = missingRequired d.
Proof. intros [-> | [-> | ->]]; reflexivity. Qed.

(** C10. For every form state, submitting sends the POST request if and only
    if all six required fields ([fullName], [email], [phone], [projectName],
    [location], [description]) are non-empty, and then the body is the form
    data.  If one of them is empty, nothing is sent, the component state
    (the form included) is unchanged and exactly one error toast is shown.
    [projectType] and [budget] play no part: with the six fields filled and
    both of these emptied, the request is still made. *)
Theorem C10_submit_requires_all_fields :
  forall (r : State) (w : World),
    ((exists q, sent (handleSubmit r w) = sent w ++ [q])
     <-> requiredFilled (formData r))
    /\ (sent (handleSubmit r w) = sent w ++ [PostSubmission (formData r)]
        /\ toasts (handleSubmit r w) = toasts w
        /\ formData (ui (handleSubmit r w)) = formData (ui w)
        \/ sent (handleSubmit r w) = sent w
           /\ inFlight (handleSubmit r w) = inFlight w
           /\ ui (handleSubmit r w) = ui w
           /\ toasts (handleSubmit r w)
              = toasts w
                ++ [mkToast "Error" "Please fill in all required fields"
                      Destructive])
    /\ (forall pt b,
          requiredFilled (formData r) ->
          requiredFilled
            (assign Key_budget b (assign Key_projectType pt (formData r))))
    /\ sent (submit
               (handleInputChange Key_projectType ""
                  (handleInputChange Key_budget "" filledForm)))
       = [PostSubmission
            (mkFormData "commercial" "A. Kumar" "a@example.com" "9000000000"
               "City Mall" "Sector 1" "" "" "Shops")].
Proof.
  intros r w. unfold handleSubmit.
  destruct (missingRequired (formData r)) eqn:M.
  - pose proof (proj1 (missingRequired_true _) M) as N.
    split; [|split; [right; repeat split|split]].
    + split; [|intros F; destruct (N F)].
      intros (q & Hq). simpl in Hq.
      rewrite <- (app_nil_r (sent w)) in Hq at 1.
      apply app_inv_head in Hq. discriminate.
    + intros pt b F. destruct (N F).
    + vm_compute. reflexivity.
  - pose proof (proj1 (missingRequired_false _) M) as F.
    split; [|split; [left; repeat split|split]].
    + split; [intros _; exact F|]. intros _. eexists. reflexivity.
    + intros pt b _. exact F.
    + vm_compute. reflexivity.
Qed.

End BannersFacts.

(* ================================================================== *)
(** ** Further properties of the admin view *)
(* ================================================================== *)

Module AdminSystemFacts.
Import Admin AdminScenarios AdminSystemScenarios AdminFacts.

Lemma In_remove_nth_other {A} (x y : A) (k : nat) (l : list A) :
  nth_error l k = Some y -> x <> y -> In x l -> In x (remove_nth k l).
Proof.
  revert k. induction l as [|z t IH]; intros [|k] H N I; simpl in *;
    try discriminate.
  - injection H as ->. destruct I as [I|I]; [now destruct N|exact I].
  - destruct I as [I|I]; [now left|right; eauto].
Qed.

Lemma Forall_remove_nth {A} (P : A -> Prop) (k : nat) (l : list A) :
  Forall P l -> Forall P (remove_nth k l).
Proof.
  revert k. induction l as [|z t IH]; intros [|k] F; simpl; auto;
    inversion F; subst; auto.
Qed.

Lemma Forall_nth_error {A} (P : A -> Prop) (k : nat) (l : list A) (x : A) :
  Forall P l -> nth_error l k = Some x -> P x.
Proof.
  intros F H. rewrite Forall_forall in F. eapply F, nth_error_In, H.
Qed.

(** *** The spinner *)

Lemma spinner_useEffect (prev : State) (w : World) :
  loading (ui w) = false \/ In InFetchSubmissions (inFlight w) ->
  loading (ui (useEffect prev w)) = false
  \/ In InFetchSubmissions (inFlight (useEffect prev w)).
Proof.
  intros H. destruct (useEffect_cases prev w) as [-> | ->]; [exact H|].
  right. simpl. rewrite <- app_assoc. apply in_or_app. right. now left.
Qed.

Lemma spinner_handle (w : World) (e : Event) :
  loading (ui w) = false \/ In InFetchSubmissions (inFlight w) ->
  loading (ui (handle e w)) = false
  \/ In InFetchSubmissions (inFlight (handle e w)).
Proof.
  intros H.
  assert (G : forall k y, nth_error (inFlight w) k = Some y ->
                          y <> InFetchSubmissions ->
                          loading (ui w) = false
                          \/ In InFetchSubmissions (remove_nth k (inFlight w))).
  { intros k y Hk Ny. destruct H as [H|H]; [now left|right].
    apply (In_remove_nth_other _ y k); auto. }
  assert (New : forall l : list Awaiting,
             In InFetchSubmissions
               ((l ++ [InFetchSubmissions]) ++ [InFetchStatistics])).
  { intros l. rewrite <- app_assoc. apply in_or_app. right. now left. }
  destruct e as [v|v|v| | |i|i v|i c|b|k resp]; simpl; try exact H.
  - destruct (paginationShown _ && negb (previousDisabled _)); exact H.
  - destruct (paginationShown _ && negb (nextDisabled _)); exact H.
  - destruct (nth_error _ i); [|exact H]. destruct (tableShown _); exact H.
  - destruct (nth_error _ i); [|exact H].
    destruct (tableShown _ && negb _); [|exact H]. simpl.
    destruct H as [H|H]; [now left|right]. apply in_or_app. now left.
  - destruct (nth_error _ i); [|exact H].
    destruct (tableShown _ && negb _); [|exact H].
    destruct c; [|exact H]. simpl.
    destruct H as [H|H]; [now left|right]. apply in_or_app. now left.
  - destruct (nth_error (inFlight w) k) as [[| |r0|r0]|] eqn:Hk;
      destruct resp as [o|o|o]; try exact H.
    + left. destruct o; reflexivity.
    + destruct o; simpl; apply (G k _ Hk); discriminate.
    + destruct o; simpl; try (apply (G k _ Hk); discriminate).
      right. apply New.
    + destruct o; simpl; try (apply (G k _ Hk); discriminate).
      right. apply New.
Qed.

(** X1. The spinner is never stuck: in every state the mounted view can
    reach, either [loading] is false or a list request is still in flight,
    whose settling (whatever the outcome) clears [loading]. *)
Theorem spinner_implies_list_request_in_flight :
  forall evs : list Event,
    (loading (ui (run evs mounted)) = false
     \/ In InFetchSubmissions (inFlight (run evs mounted)))
    /\ forall k o,
         nth_error (inFlight (run evs mounted)) k = Some InFetchSubmissions ->
         loading (ui (dispatch (run evs mounted) (Settle k (ListResponse o))))
         = false.
Proof.
  intros evs. split.
  - assert (G : forall w,
               loading (ui w) = false \/ In InFetchSubmissions (inFlight w) ->
               loading (ui (run evs w)) = false
               \/ In InFetchSubmissions (inFlight (run evs w))).
    { induction evs as [|e evs IH]; intros w H; simpl; [exact H|].
      apply IH. unfold dispatch. apply spinner_useEffect, spinner_handle, H. }
    apply G. right. simpl. now left.
  - intros k o Hk. rewrite (dispatch_settle_list _ k o Hk).
    destruct o; reflexivity.
Qed.

(** *** Every list request is well formed *)

Lemma wellFormed_listParams (r : State) :
  1 <= currentPage r -> wellFormed (GetSubmissions (listParams r)).
Proof.
  intros H. split; [|split].
  - apply listParams_entries. right. left. auto.
  - exists (currentPage r). split; [exact H|].
    apply listParams_entries. left. auto.
  - apply listParams_keys_distinct.
Qed.

Lemma pagesOk_refetch (r : State) (w : World) :
  1 <= currentPage r -> pagesOk w ->
  pagesOk ((fetchSubmissions r ;; fetchStatistics) w).
Proof.
  intros Hr (P & C & S). split; [exact P|]. split; simpl.
  - rewrite <- app_assoc. apply Forall_app. split; [exact C|].
    repeat constructor.
  - rewrite <- app_assoc. apply Forall_app. split; [exact S|].
    constructor; [apply wellFormed_listParams, Hr|]. repeat constructor.
Qed.

Lemma pagesOk_state (f : World -> World) (w : World) :
  currentPage (ui (f w)) = currentPage (ui w) ->
  inFlight (f w) = inFlight w ->
  sent (f w) = sent w ->
  pagesOk w -> pagesOk (f w).
Proof. intros Hp Hi Hs (P & C & S). unfold pagesOk. now rewrite Hp, Hi, Hs. Qed.

Lemma pagesOk_handle (w : World) (e : Event) :
  pagesOk w -> pagesOk (handle e w).
Proof.
  intros K. pose proof K as (P & C & S).
  pose proof (currentPage_floor_handle w e P) as P'.
  split; [exact P'|]. clear P'.
  assert (Same : Forall capturedPageOk (inFlight w)
                 /\ Forall wellFormed (sent w)) by auto.
  destruct e as [v|v|v| | |i|i v|i c|b|k resp]; simpl; try exact Same.
  - destruct (paginationShown _ && negb (previousDisabled _)); exact Same.
  - destruct (paginationShown _ && negb (nextDisabled _)); exact Same.
  - destruct (nth_error _ i); [|exact Same].
    destruct (tableShown _); exact Same.
  - destruct (nth_error _ i); [|exact Same].
    destruct (tableShown _ && negb _); [|exact Same]. simpl. split.
    + apply Forall_app. split; [exact C|]. repeat constructor. exact P.
    + apply Forall_app. split; [exact S|]. repeat constructor.
  - destruct (nth_error _ i); [|exact Same].
    destruct (tableShown _ && negb _); [|exact Same].
    destruct c; [|exact Same]. simpl. split.
    + apply Forall_app. split; [exact C|]. repeat constructor. exact P.
    + apply Forall_app. split; [exact S|]. repeat constructor.
  - pose proof (Forall_remove_nth _ k _ C) as C'.
    destruct (nth_error (inFlight w) k) as [[| |r0|r0]|] eqn:Hk;
      destruct resp as [o|o|o]; try exact Same;
      try (destruct o; simpl; split; assumption).
    + pose proof (Forall_nth_error _ _ _ _ C Hk) as Hr. simpl in Hr.
      destruct o; simpl; try (split; assumption).
      apply (pagesOk_refetch r0 (dropInFlight k w) Hr).
      split; [exact P|]. split; assumption.
    + pose proof (Forall_nth_error _ _ _ _ C Hk) as Hr. simpl in Hr.
      destruct o; simpl; try (split; assumption).
      apply (pagesOk_refetch r0 (dropInFlight k w) Hr).
      split; [exact P|]. split; assumption.
Qed.

Lemma pagesOk_dispatch (w : World) (e : Event) :
  pagesOk w -> pagesOk (dispatch w e).
Proof.
  intros K. apply pagesOk_handle with (e := e) in K.
  unfold dispatch. destruct (useEffect_cases (ui w) (handle e w)) as [-> | ->];
    [exact K|].
  apply pagesOk_refetch; [apply K|exact K].
Qed.

Lemma pagesOk_mounted : pagesOk mounted.
Proof.
  apply (pagesOk_refetch initialState); [simpl; lia|].
  split; [simpl; lia|]. split; constructor.
Qed.

(** X2. Whatever the user does and however the store answers, every list
    request the view sends carries [limit=10] and a [page] that is the
    decimal form of an integer not below 1, and names no key twice. *)
Theorem every_list_request_is_well_formed :
  forall evs : list Event, Forall wellFormed (sent (run evs mounted)).
Proof.
  intros evs.
  assert (G : forall w, pagesOk w -> pagesOk (run evs w)).
  { induction evs as [|e evs IH]; intros w K; simpl; [exact K|].
    apply IH, pagesOk_dispatch, K. }
  apply (G mounted pagesOk_mounted).
Qed.

(** *** Viewing details *)


(** *** Statistics *)

(** X4. The statistics cards, once loaded, never disappear and never show
    anything but the last successful statistics response: an event either
    leaves [statistics] untouched or is a successful statistics response,
    whose data it then holds. *)
Theorem statistics_change_only_by_statistics_response :
  forall (w : World) (e : Event),
    (statistics (ui (dispatch w e)) = statistics (ui w)
     \/ exists k d,
          e = Settle k (StatisticsResponse (JsonOk d))
          /\ nth_error (inFlight w) k = Some InFetchStatistics
          /\ statistics (ui (dispatch w e)) = Some d)
    /\ (statistics (ui w) <> None -> statistics (ui (dispatch w e)) <> None).
Proof.
  intros w e.
  assert (G : statistics (ui (dispatch w e)) = statistics (ui w)
              \/ exists k d,
                   e = Settle k (StatisticsResponse (JsonOk d))
                   /\ nth_error (inFlight w) k = Some InFetchStatistics
                   /\ statistics (ui (dispatch w e)) = Some d).
  { unfold dispatch.
    assert (U : forall w', statistics (ui (useEffect (ui w) w'))
                           = statistics (ui w')).
    { intros w'. destruct (useEffect_ui (ui w) w') as [-> | ->]; reflexivity. }
    rewrite U.
    destruct e as [v|v|v| | |i|i v|i c|b|k resp]; simpl;
      try (left; reflexivity).
    - destruct (paginationShown _ && negb (previousDisabled _)); now left.
    - destruct (paginationShown _ && negb (nextDisabled _)); now left.
    - destruct (nth_error _ i); [|now left]. destruct (tableShown _); now left.
    - destruct (nth_error _ i); [|now left].
      destruct (tableShown _ && negb _); now left.
    - destruct (nth_error _ i); [|now left].
      destruct (tableShown _ && negb _); [|now left]. destruct c; now left.
    - destruct (nth_error (inFlight w) k) as [[| |r0|r0]|] eqn:Hk;
        destruct resp as [o|o|o]; try (left; reflexivity);
        destruct o as [|err|d]; try (left; reflexivity).
      right. exists k, d.
      split; [reflexivity|split; [exact Hk|reflexivity]]. }
  split; [exact G|].
  intros N. destruct G as [-> | (k & d & _ & _ & ->)]; [exact N|discriminate].
Qed.

(** *** Notifications *)

(** X5. No user action shows a toast by itself; toasts come from settled
    requests only, at most one per response: none for a statistics
    response or a successful list response, exactly one for every answer
    to a status change or a delete. *)
Theorem toasts_come_from_responses :
  forall (w : World) (e : Event),
    exists l,
      toasts (dispatch w e) = toasts w ++ l
      /\ (List.length l <= 1)%nat
      /\ match e with
         | Settle k (PlainResponse _) =>
             match nth_error (inFlight w) k with
             | Some (InHandleStatusChange _) => List.length l = 1%nat
             | Some (InHandleDelete _) => List.length l = 1%nat
             | _ => l = []
             end
         | Settle k (ListResponse o) =>
             match nth_error (inFlight w) k with
             | Some InFetchSubmissions =>
                 List.length l = (if failed o then 1 else 0)%nat
             | _ => l = []
             end
         | _ => l = []
         end.
Proof.
  intros w e. unfold dispatch.
  assert (U : forall w', toasts (useEffect (ui w) w') = toasts w').
  { intros w'. destruct (useEffect_cases (ui w) w') as [-> | ->]; reflexivity. }
  rewrite U.
  assert (Z0 : toasts w = toasts w ++ []) by now rewrite app_nil_r.
  destruct e as [v|v|v| | |i|i v|i c|b|k resp]; simpl;
    try (exists []; split; [exact Z0|split; [simpl; lia|reflexivity]]).
  - exists []. split; [|split; [simpl; lia|reflexivity]].
    destruct (paginationShown _ && negb (previousDisabled _)); exact Z0.
  - exists []. split; [|split; [simpl; lia|reflexivity]].
    destruct (paginationShown _ && negb (nextDisabled _)); exact Z0.
  - exists []. split; [|split; [simpl; lia|reflexivity]].
    destruct (nth_error _ i); [|exact Z0]. destruct (tableShown _); exact Z0.
  - exists []. split; [|split; [simpl; lia|reflexivity]].
    destruct (nth_error _ i); [|exact Z0].
    destruct (tableShown _ && negb _); exact Z0.
  - exists []. split; [|split; [simpl; lia|reflexivity]].
    destruct (nth_error _ i); [|exact Z0].
    destruct (tableShown _ && negb _); [|exact Z0]. destruct c; exact Z0.
  - destruct (nth_error (inFlight w) k) as [[| |r0|r0]|];
      destruct resp as [o|o|o];
      try (exists []; split; [exact Z0|split; [simpl; lia|reflexivity]]);
      destruct o as [|err|d]; simpl;
      try (exists []; split; [exact Z0|split; [simpl; lia|reflexivity]]);
      eexists [_]; (split; [reflexivity|split; [simpl; lia|reflexivity]]).
Qed.

(** *** Refetching after a change of the query *)

Lemma world_eta (w : World) :
  {| ui := ui w; toasts := toasts w; console := console w;
     sent := sent w; inFlight := inFlight w |} = w.
Proof. destruct w; reflexivity. Qed.

(** A query control that leaves the four dependencies of the effect as
    they were leaves the whole world as it was. *)
Lemma query_control_same_deps (w : World) (e : Event) :
  isQueryControl e = true ->
  depsChanged (ui w) (ui (handle e w)) = false ->
  handle e w = w.
Proof.
  intros Q D. unfold depsChanged in D.
  apply negb_false_iff in D.
  repeat (apply andb_true_iff in D as [D ?]).
  repeat match goal with
         | H : (_ =? _)%string = true |- _ => apply String.eqb_eq in H
         | H : (_ =? _) = true |- _ => apply Z.eqb_eq in H
         end.
  destruct w as [s t c q f]. destruct s.
  destruct e; try discriminate; simpl in *;
    repeat match goal with
           | |- context [if ?b then _ else _] => destruct b
           end;
    unfold onPreviousClick, onNextClick, setCurrentPage, withState in *;
    simpl in *; subst; try reflexivity; congruence.
Qed.

(** X6. Typing in the search box, choosing a filter or pressing a page button
    either changes nothing at all (and then sends nothing), or changes the
    query, and then exactly one list request and one statistics request
    follow; the list request carries the parameters of the state after the
    change, and the spinner is on. *)
Theorem query_change_refetches_from_the_new_state :
  forall (w : World) (e : Event),
    isQueryControl e = true ->
    dispatch w e = w
    \/ (depsChanged (ui w) (ui (dispatch w e)) = true
        /\ sent (dispatch w e)
           = sent w
             ++ [GetSubmissions (listParams (ui (dispatch w e)));
                 GetStatistics]
        /\ loading (ui (dispatch w e)) = true
        /\ toasts (dispatch w e) = toasts w).
Proof.
  intros w e Q. unfold dispatch, useEffect.
  destruct (depsChanged (ui w) (ui (handle e w))) eqn:D.
  - right.
    assert (S : sent (handle e w) = sent w /\ toasts (handle e w) = toasts w).
    { destruct e; try discriminate; simpl;
        repeat match goal with
               | |- context [if ?b then _ else _] => destruct b
               end; split; reflexivity. }
    destruct S as [S T]. simpl. rewrite S, T, <- app_assoc.
    repeat split. exact D.
  - left. apply query_control_same_deps; assumption.
Qed.

(** On page 3 of 5, "next" asks the store for page 4. *)
Lemma query_change_on_page3 :
  sent (dispatch onPage3 NextClick)
  = sent onPage3
    ++ [GetSubmissions [("page", "4"); ("limit", "10")]; GetStatistics].
Proof.
  destruct (query_change_refetches_from_the_new_state onPage3 NextClick
              eq_refl) as [E | (_ & S & _)].
  - exfalso. apply (f_equal (fun w => currentPage (ui w))) in E.
    vm_compute in E. discriminate.
  - rewrite S. vm_compute. reflexivity.
Defined.

End AdminSystemFacts.

(* ================================================================== *)
(** ** Further properties of the lead-capture form *)
(* ================================================================== *)

Module BannersSystemFacts.
Import Banners BannersScenarios BannersSystem BannersSystemScenarios
  BannersFacts.

(** *** Opening the form *)

(** Clicking a banner opens the form for that banner with every text field
    empty and both [bannerType] and [projectType] set to the banner's type,
    whatever had been typed before; a submit pressed right away sends
    nothing and shows the one "required fields" toast. *)
Lemma banner_click_opens_an_empty_form :
  forall (banner : AdvertisementBanner) (w : World),
    showForm (ui (handleBannerClick banner w)) = true
    /\ selectedBanner (ui (handleBannerClick banner w)) = Some banner
    /\ (forall f,
          field f (formData (ui (handleBannerClick banner w)))
          = if hasInput f then "" else BannerType_value (banner_type banner))
    /\ sent (submit (handleBannerClick banner w)) = sent w
    /\ toasts (submit (handleBannerClick banner w))
       = toasts w
         ++ [mkToast "Error" "Please fill in all required fields"
               Destructive].
Proof.
  intros banner w. split; [reflexivity|]. split; [reflexivity|].
  split; [intros f; destruct f; reflexivity|]. split; reflexivity.
Qed.

(** *** Typing *)

(** [handleInputChange(field, value)] writes that one field and nothing
    else: reading any field afterwards gives the new value for the field
    written and the old value for every other, and the rest of the
    component, the toasts and the network are untouched. *)
Lemma input_change_writes_one_field :
  forall (f g : Field) (v : string) (w : World),
    field g (formData (ui (handleInputChange f v w)))
    = (if Field_eqb f g then v else field g (formData (ui w)))
    /\ showForm (ui (handleInputChange f v w)) = showForm (ui w)
    /\ loading (ui (handleInputChange f v w)) = loading (ui w)
    /\ selectedBanner (ui (handleInputChange f v w)) = selectedBanner (ui w)
    /\ sent (handleInputChange f v w) = sent w
    /\ toasts (handleInputChange f v w) = toasts w.
Proof.
  intros f g v w. split; [destruct f, g; reflexivity|]. repeat split.
Qed.

(** *** The open form and its banner *)

Lemma formOfSelectedBanner_dispatch (w : World) (e : Event) :
  formOfSelectedBanner w -> formOfSelectedBanner (dispatch w e).
Proof.
  intros K.
  destruct e as [i|f v| | |o]; simpl.
  - destruct (nth_error BANNERS i) as [banner|] eqn:Hi; [|exact K].
    right. exists banner. split; [eapply nth_error_In, Hi|].
    repeat split.
  - destruct (showForm (ui w) && hasInput f)%bool eqn:G; [|exact K].
    apply andb_true_iff in G as [F Hf].
    destruct K as [K | (banner & Hb & Hs & Ht & Hp)]; [congruence|].
    right. exists banner. split; [exact Hb|].
    destruct f; try discriminate; repeat split; assumption.
  - destruct (showForm (ui w) && negb (loading (ui w)))%bool; [|exact K].
    unfold handleSubmit.
    destruct (missingRequired (formData (ui w))); exact K.
  - left. reflexivity.
  - destruct (inFlight w); [exact K|].
    destruct o; try exact K. left. reflexivity.
Qed.

(** X7. Whatever the user does and however the store answers, whenever the
    form is open a banner of [BANNERS] is selected (its title heads the
    dialog) and the form data carry that banner's type in both
    [bannerType] and [projectType]. *)
Theorem open_form_belongs_to_selected_banner :
  forall evs : list Event,
    showForm (ui (run evs mounted)) = false
    \/ exists banner,
         In banner BANNERS
         /\ selectedBanner (ui (run evs mounted)) = Some banner
         /\ bannerType (formData (ui (run evs mounted)))
            = BannerType_value (banner_type banner)
         /\ projectType (formData (ui (run evs mounted)))
            = BannerType_value (banner_type banner).
Proof.
  intros evs.
  assert (G : forall w, formOfSelectedBanner w ->
                        formOfSelectedBanner (run evs w)).
  { induction evs as [|e evs IH]; intros w K; simpl; [exact K|].
    apply IH, formOfSelectedBanner_dispatch, K. }
  apply (G mounted). left. reflexivity.
Qed.

(** *** After the store answers *)

(** X8. A complete, open form is submitted and the request settles before
    anything else happens: [loading] is cleared, the typed data stay in
    [formData] and the settlement itself sends nothing.  On success the form
    is closed, the banner deselected, one success toast shown, and a
    further submit does nothing.  On failure the form stays open on the
    same banner with one destructive toast, and pressing submit again posts
    the same body a second time.  (The inputs stay editable while a request
    is pending: in general a retry posts the form data as they stand when
    it is pressed, which is the last conjunct.) *)
Theorem failed_submission_can_be_retried :
  forall (o : Outcome unit) (w : World),
    showForm (ui w) = true ->
    loading (ui w) = false ->
    missingRequired (formData (ui w)) = false ->
    loading (ui (submitAndSettle o w)) = false
    /\ formData (ui (submitAndSettle o w)) = formData (ui w)
    /\ sent (submitAndSettle o w)
       = sent w ++ [PostSubmission (formData (ui w))]
    /\ match o with
       | JsonOk _ =>
           showForm (ui (submitAndSettle o w)) = false
           /\ selectedBanner (ui (submitAndSettle o w)) = None
           /\ toasts (submitAndSettle o w)
              = toasts w
                ++ [mkToast "Success"
                      "Your submission has been sent to our sales team"
                      Default]
           /\ dispatch (submitAndSettle o w) SubmitForm
              = submitAndSettle o w
       | _ =>
           showForm (ui (submitAndSettle o w)) = true
           /\ selectedBanner (ui (submitAndSettle o w))
              = selectedBanner (ui w)
           /\ (exists t,
                 toasts (submitAndSettle o w) = toasts w ++ [t]
                 /\ toast_variant t = Destructive)
           /\ sent (dispatch (submitAndSettle o w) SubmitForm)
              = sent w
                ++ [PostSubmission (formData (ui w));
                    PostSubmission (formData (ui w))]
       end
    /\ (forall w',
          showForm (ui w') = true ->
          missingRequired (formData (ui w')) = false ->
          inFlight w' = 1%nat ->
          failed o = true ->
          sent (dispatch (dispatch w' (Settle o)) SubmitForm)
          = sent w' ++ [PostSubmission (formData (ui w'))]).
Proof.
  intros o w F L M. unfold submitAndSettle.
  assert (E : forall w', showForm (ui w') = true ->
                         missingRequired (formData (ui w')) = false ->
                         inFlight w' = 1%nat -> failed o = true ->
                         sent (dispatch (dispatch w' (Settle o)) SubmitForm)
                         = sent w' ++ [PostSubmission (formData (ui w'))]).
  { intros w' F' M' I' Fo. simpl. rewrite I'.
    destruct o as [|err|d]; try discriminate; simpl; rewrite F'; simpl;
      unfold handleSubmit; simpl; rewrite M'; reflexivity. }
  assert (S1 : dispatch w SubmitForm
               = (setLoading true ;; fetch (PostSubmission (formData (ui w))))
                   w).
  { simpl. rewrite F, L. simpl. unfold handleSubmit. now rewrite M. }
  rewrite S1.
  split; [destruct o; reflexivity|].
  split; [destruct o; reflexivity|].
  split; [destruct o; reflexivity|].
  split; [|exact E].
  destruct o as [|err|d]; simpl.
  - split; [exact F|]. split; [reflexivity|].
    split; [eexists; split; reflexivity|].
    rewrite F. simpl. unfold handleSubmit. simpl. rewrite M. simpl.
    now rewrite <- app_assoc.
  - split; [exact F|]. split; [reflexivity|].
    split; [eexists; split; reflexivity|].
    rewrite F. simpl. unfold handleSubmit. simpl. rewrite M. simpl.
    now rewrite <- app_assoc.
  - repeat split.
Qed.

(** The filled form is submitted, the request is rejected, and the second
    submit posts the same body again. *)
Lemma failed_submission_retry_example :
  sent (dispatch (submitAndSettle Rejected filledForm) SubmitForm)
  = [PostSubmission (formData (ui filledForm));
     PostSubmission (formData (ui filledForm))].
Proof.
  destruct (failed_submission_can_be_retried Rejected filledForm)
    as (_ & _ & _ & (_ & _ & _ & ->) & _);
    vm_compute; reflexivity.
Defined.

(** *** Every request that leaves the form *)

Lemma formOk_dispatch (w : World) (e : Event) :
  formOk w -> formOk (dispatch w e).
Proof.
  intros K. pose proof K as (P & V & S & L).
  destruct e as [i|f v| | |o]; simpl.
  - destruct (nth_error BANNERS i) as [banner|]; [|exact K].
    split; [reflexivity|]. split; [intros _; eexists; reflexivity|].
    split; [exact S|exact L].
  - destruct (showForm (ui w) && hasInput f)%bool eqn:G; [|exact K].
    apply andb_true_iff in G as [F Hf].
    destruct f; try discriminate;
      (split; [exact P|split; [intros _; exact (V F)|split; [exact S|exact L]]]).
  - destruct (showForm (ui w) && negb (loading (ui w)))%bool eqn:G;
      [|exact K].
    apply andb_true_iff in G as [F Ld]. apply negb_true_iff in Ld.
    unfold handleSubmit.
    destruct (missingRequired (formData (ui w))) eqn:M.
    + split; [exact P|]. split; [exact V|]. split; [exact S|exact L].
    + split; [exact P|]. split; [intros _; exact (V F)|]. split; simpl.
      * apply Forall_app. split; [exact S|]. constructor; [|constructor].
        split; [now apply missingRequired_false|].
        destruct (V F) as (t & Ht). exists t. split; congruence.
      * rewrite L, Ld. reflexivity.
  - split; [exact P|]. split; [discriminate|]. split; [exact S|exact L].
  - destruct (inFlight w) as [|n] eqn:N; [exact K|].
    destruct (loading (ui w)); [|discriminate]. injection L as ->.
    destruct o; (split; [exact P|]);
      (split; [|split; [exact S|simpl; rewrite N; reflexivity]]);
      simpl; try discriminate; intros F; exact (V F).
Qed.

(** X9. Whatever the user does and however the store answers, every body the
    form posts has the six required fields filled and carries in both
    [bannerType] and [projectType] the type of one of the four banners;
    never more than one submission is in flight, and the submit button is
    disabled ([loading]) exactly while one is. *)
Theorem every_posted_body_is_complete :
  forall evs : list Event,
    Forall goodBody (sent (run evs mounted))
    /\ (inFlight (run evs mounted) <= 1)%nat
    /\ (loading (ui (run evs mounted)) = true
        <-> inFlight (run evs mounted) = 1%nat).
Proof.
  intros evs.
  assert (G : forall w, formOk w -> formOk (run evs w)).
  { induction evs as [|e evs IH]; intros w K; simpl; [exact K|].
    apply IH, formOk_dispatch, K. }
  destruct (G mounted) as (_ & _ & S & L).
  { repeat split; simpl; auto. discriminate. }
  split; [exact S|]. rewrite L.
  destruct (loading (ui (run evs mounted))); split; try lia;
    split; auto; discriminate.
Qed.

End BannersSystemFacts.

(* ================================================================== *)
(** ** Properties of the two install banners *)
(* ================================================================== *)

Module BrowserFacts.
Import Browser.

Lemma lowerAscii_idempotent (c : ascii) :
  lowerAscii (lowerAscii c) = lowerAscii c.
Proof. destruct c as [[] [] [] [] [] [] [] []]; reflexivity. Qed.

Lemma foldCase_idempotent (s : string) :
  foldCase (foldCase s) = foldCase s.
Proof.
  induction s as [|c s IH]; simpl; [reflexivity|].
  now rewrite lowerAscii_idempotent, IH.
Qed.

Lemma lowerAscii_not_226 (c : ascii) :
  Nat.eqb (nat_of_ascii (lowerAscii c)) 226 = Nat.eqb (nat_of_ascii c) 226.
Proof. destruct c as [[] [] [] [] [] [] [] []]; reflexivity. Qed.

Lemma occursIn_cons (lit : string) (c : ascii) (s : string) :
  occursIn lit s = true -> occursIn lit (String c s) = true.
Proof. intros H. cbn [occursIn]. rewrite H. apply orb_true_r. Qed.

End BrowserFacts.

Module ReminderFacts.
Import Browser Reminder ReminderScenarios BrowserFacts.

Lemma rendered_checkInstallAttempt (now : Z) (w : World) :
  ui w = initialState ->
  rendered (ui (checkInstallAttempt now w)) = true
  <-> exists t, apkDownloadAttempted (browser w) = Some (Stamp (Some t))
                /\ now - t < 168 * hourMs.
Proof.
  intros U. unfold checkInstallAttempt, hoursSinceBelow.
  destruct (apkDownloadAttempted (browser w)) as [[|[t|]]|];
    try (rewrite U; split; [discriminate | intros (t' & H & _); discriminate]).
  destruct (now - t <? 168 * hourMs) eqn:E.
  - apply Z.ltb_lt in E. split; [eauto|]. intros _.
    unfold rendered. simpl. rewrite U. reflexivity.
  - apply Z.ltb_ge in E. rewrite U. split; [discriminate|].
    intros (t' & H & L'). injection H as <-. unfold hourMs in *; lia.
Qed.

(** *** The lower-casing of the platform *)

(** The mobile test depends on what the platform's lower-casing does
    beyond ASCII: a lower-casing that knows the Kelvin sign finds
    [blackberry] in a user agent where the regular expression alone, with
    its [i] flag, does not. *)
Lemma lowering_decides_the_mobile_test :
  isMobile lowerWithKelvin kelvinBlackberry = true
  /\ isMobile foldCase kelvinBlackberry = false.
Proof. split; vm_compute; reflexivity. Qed.

Lemma lowerWithKelvin_other (c : ascii) (s : string) :
  Nat.eqb (nat_of_ascii c) 226 = false ->
  lowerWithKelvin (String c s)
  = String (lowerAscii c) (lowerWithKelvin s).
Proof.
  intros H. cbn [lowerWithKelvin]. unfold isKelvin. rewrite H. simpl.
  destruct s as [|c2 [|c3 s3]]; reflexivity.
Qed.

Lemma prefix_lowerWithKelvin (lit s : string) :
  plain lit ->
  String.prefix lit (foldCase s) = true ->
  String.prefix lit (foldCase (lowerWithKelvin s)) = true.
Proof.
  revert s. induction lit as [|a lit IH]; intros s P H.
  - destruct (foldCase (lowerWithKelvin s)); reflexivity.
  - destruct s as [|c s]; [discriminate|].
    cbn [foldCase String.prefix] in H.
    destruct (ascii_dec a (lowerAscii c)) as [E|]; [|discriminate].
    assert (N : Nat.eqb (nat_of_ascii c) 226 = false).
    { rewrite <- lowerAscii_not_226, <- E. apply P. left. reflexivity. }
    rewrite (lowerWithKelvin_other c s N).
    cbn [foldCase String.prefix]. rewrite lowerAscii_idempotent.
    destruct (ascii_dec a (lowerAscii c)); [|contradiction].
    apply IH; [|exact H]. intros x Hx. apply P. right. exact Hx.
Qed.

(** An ASCII literal that the regular expression finds in a string, it
    still finds after this lower-casing. *)
Lemma occursIn_lowerWithKelvin (lit : string) (a : ascii) (n : nat) :
  plain (String a lit) ->
  Nat.leb 128 (nat_of_ascii a) = false ->
  forall s, (String.length s <= n)%nat ->
    occursIn (String a lit) (foldCase s) = true ->
    occursIn (String a lit) (foldCase (lowerWithKelvin s)) = true.
Proof.
  intros P A. induction n as [|n IH]; intros s L H.
  - destruct s; [discriminate|simpl in L; lia].
  - destruct s as [|c s1]; [discriminate|].
    cbn [foldCase occursIn] in H. apply orb_true_iff in H as [H|H].
    + pose proof (prefix_lowerWithKelvin (String a lit) (String c s1) P) as Q.
      cbn [foldCase] in Q. specialize (Q H).
      destruct (foldCase (lowerWithKelvin (String c s1))) eqn:E;
        cbn [occursIn]; rewrite Q; reflexivity.
    + simpl in L.
      destruct s1 as [|c2 [|c3 s3]].
      * discriminate.
      * cbn [lowerWithKelvin]. cbn [foldCase]. apply occursIn_cons.
        apply (IH (String c2 EmptyString)); [simpl in *; lia|exact H].
      * cbn [lowerWithKelvin]. destruct (isKelvin c c2 c3) eqn:K.
        -- cbn [foldCase]. apply occursIn_cons. apply IH; [simpl in *; lia|].
           unfold isKelvin in K.
           apply andb_true_iff in K as [K K3].
           apply andb_true_iff in K as [K1 K2].
           apply Nat.eqb_eq in K2, K3.
           assert (E2 : c2 = ascii_of_nat 132)
             by (rewrite <- K2; symmetry; apply ascii_nat_embedding).
           assert (E3 : c3 = ascii_of_nat 170)
             by (rewrite <- K3; symmetry; apply ascii_nat_embedding).
           subst c2 c3.
           cbn [foldCase occursIn String.prefix] in H.
           destruct (ascii_dec a (lowerAscii (ascii_of_nat 132))) as [E|_].
           { subst a. discriminate A. }
           destruct (ascii_dec a (lowerAscii (ascii_of_nat 170))) as [E|_].
           { subst a. discriminate A. }
           exact H.
        -- cbn [foldCase]. apply occursIn_cons.
           apply (IH (String c2 (String c3 s3))); [simpl in *; lia|exact H].
Qed.

(** *** When the reminder shows *)

(** X10. Whether the reminder is on screen after mounting: exactly when the
    mobile test fails on the lower-cased user agent (whatever the platform's
    [toLowerCase] makes of it), [localStorage] can be read, the reminder was
    not dismissed within the last 24 hours (an unreadable dismissal record
    hides it, one without a valid date does not count), and an install
    attempt with a valid date less than 168 hours old is recorded.  Mounting
    never writes to the browser. *)
Theorem reminder_rendered_iff :
  forall (toLowerCase : string -> string) (now : Z) (b : Browser),
    (rendered (ui (mounted toLowerCase now b)) = true
     <-> isMobile toLowerCase (userAgent b) = false
         /\ localReadable b = true
         /\ match reminderDismissed b with
            | Some Unreadable => False
            | Some (Stamp (Some t)) => 24 * hourMs <= now - t
            | Some (Stamp None) => True
            | None => True
            end
         /\ exists t, apkDownloadAttempted b = Some (Stamp (Some t))
                      /\ now - t < 168 * hourMs)
    /\ browser (mounted toLowerCase now b) = b.
Proof.
  intros toLowerCase now b. unfold mounted, mountEffect. simpl.
  destruct (isMobile toLowerCase (userAgent b)); simpl.
  { split; [|reflexivity]. split; [discriminate|]. now intros [H _]. }
  destruct (localReadable b); simpl.
  2:{ split; [|reflexivity]. split; [discriminate|]. now intros (_ & H & _). }
  pose proof (rendered_checkInstallAttempt now
                {| ui := initialState; browser := b; console := [] |}
                eq_refl) as C.
  simpl in C.
  assert (B : browser (checkInstallAttempt now
                {| ui := initialState; browser := b; console := [] |}) = b).
  { unfold checkInstallAttempt. simpl.
    destruct (apkDownloadAttempted b) as [[|[t|]]|]; try reflexivity.
    destruct (hoursSinceBelow now t 168); reflexivity. }
  destruct (reminderDismissed b) as [[|[t|]]|].
  - split; [|reflexivity]. split; [discriminate|]. now intros (_ & _ & H & _).
  - unfold hoursSinceBelow.
    destruct (now - t <? 24 * hourMs) eqn:L.
    + apply Z.ltb_lt in L. split; [|reflexivity]. split; [discriminate|].
      intros (_ & _ & H & _). unfold hourMs in *; lia.
    + apply Z.ltb_ge in L. split; [|exact B]. rewrite C. tauto.
  - split; [|exact B]. rewrite C. tauto.
  - split; [|exact B]. rewrite C. tauto.
Qed.

(** X11. Dismissing hides the reminder at once.  When the dismissal can be
    stored, a later mount in the same browser stays hidden as long as fewer
    than 24 hours have passed on the clock (also when the clock went
    backwards); from 24 hours on it is shown or not as if it had never been
    dismissed. *)
Theorem reminder_dismissal_lasts_24_hours :
  forall (toLowerCase : string -> string) (t0 t1 : Z) (w : World),
    localWritable (browser w) = true ->
    rendered (ui (handleDismiss t0 w)) = false
    /\ reminderDismissed (browser (handleDismiss t0 w))
       = Some (Stamp (Some t0))
    /\ (t1 - t0 < 24 * hourMs ->
        rendered (ui (mounted toLowerCase t1 (browser (handleDismiss t0 w))))
        = false)
    /\ (24 * hourMs <= t1 - t0 ->
        rendered (ui (mounted toLowerCase t1 (browser (handleDismiss t0 w))))
        = rendered (ui (mounted toLowerCase t1
                          (setReminderDismissed None (browser w))))).
Proof.
  intros toLowerCase t0 t1 w W.
  assert (R : rendered (ui (handleDismiss t0 w)) = false).
  { unfold handleDismiss, rendered. simpl. reflexivity. }
  assert (B : browser (handleDismiss t0 w)
              = setReminderDismissed (Some (Stamp (Some t0))) (browser w)).
  { unfold handleDismiss, tryLocal. simpl. now rewrite W. }
  split; [exact R|]. rewrite B. split; [reflexivity|].
  unfold mounted, mountEffect, hoursSinceBelow.
  cbn [browser ui userAgent localReadable reminderDismissed
       setReminderDismissed].
  destruct (isMobile toLowerCase (userAgent (browser w)));
    [split; reflexivity|].
  destruct (localReadable (browser w)); cbn [negb]; [|split; reflexivity].
  destruct (t1 - t0 <? 24 * hourMs) eqn:E;
    [apply Z.ltb_lt in E | apply Z.ltb_ge in E]; split; intros L;
    try (unfold hourMs in *; lia); try reflexivity.
  unfold checkInstallAttempt.
  cbn [browser apkDownloadAttempted setReminderDismissed].
  destruct (apkDownloadAttempted (browser w)) as [[|[t|]]|]; try reflexivity.
  destruct (hoursSinceBelow t1 t 168); reflexivity.
Qed.

(** The reminder is on screen two seconds into the clock; dismissed one
    second later, it is still hidden 23 hours after that.  (The user agent
    of the example is ASCII, where lower-casing is [foldCase].) *)
Lemma reminder_dismissal_example :
  rendered (ui (mounted foldCase 2000 desktopWithAttempt)) = true
  /\ rendered
       (ui (mounted foldCase (3000 + 23 * hourMs)
              (browser (handleDismiss 3000
                          (mounted foldCase 2000 desktopWithAttempt)))))
     = false.
Proof.
  split; [vm_compute; reflexivity|].
  destruct (reminder_dismissal_lasts_24_hours foldCase 3000
              (3000 + 23 * hourMs)
              (mounted foldCase 2000 desktopWithAttempt) eq_refl)
    as (_ & _ & H & _).
  apply H. vm_compute. reflexivity.
Defined.

End ReminderFacts.

Module PwaFacts.
Import Browser Pwa PwaScenarios BrowserFacts.

(** *** Showing and dismissing the banner *)

(** X12. Dismissing hides the banner at once.  A later page load in the same
    browser keeps it hidden exactly when [sessionStorage] can be read and
    holds ["1"] under the key: because the dismissal could be written, or
    because it was there before.  In particular a browser whose
    [sessionStorage] throws shows the banner on every load. *)
Theorem banner_dismissal_is_per_session :
  forall w : World,
    visible (ui (dismiss w)) = false
    /\ (visible (ui (mounted (browser (dismiss w)))) = false
        <-> sessionReadable (browser w) = true
            /\ (sessionWritable (browser w) = true
                \/ downloadDismissedSession (browser w) = Some "1"))
    /\ forall b, sessionReadable b = false -> visible (ui (mounted b)) = true.
Proof.
  intros w. split; [reflexivity|]. split.
  - unfold mounted, showOnLoad, dismiss, trySession. simpl.
    destruct (sessionWritable (browser w)); simpl;
      destruct (sessionReadable (browser w)); simpl;
      try (split; [discriminate | intros [H _]; discriminate]).
    + split; auto.
    + destruct (downloadDismissedSession (browser w)) as [v|]; simpl.
      * destruct (String.eqb_spec v "1") as [->|N]; simpl.
        -- split; auto.
        -- split; [discriminate|]. intros [_ [H|H]]; [discriminate|].
           injection H as ->. now destruct N.
      * split; [discriminate|]. intros [_ [H|H]]; discriminate.
  - intros b R. unfold mounted, showOnLoad. simpl. now rewrite R.
Qed.

(** *** What an event can do to the browser and to the network *)

Lemma filter_nil_nth_error {A} (p : A -> bool) (l : list A) (k : nat) (x : A) :
  filter p l = [] -> nth_error l k = Some x -> p x = false.
Proof.
  revert k. induction l as [|y t IH]; intros [|k] F H; simpl in *;
    try discriminate.
  - injection H as ->. destruct (p x); [discriminate|reflexivity].
  - destruct (p y); [discriminate|]. eauto.
Qed.

Lemma keeps_mounted (b : Browser) : keeps b (mounted b).
Proof.
  unfold keeps, mounted, showOnLoad. simpl.
  destruct (sessionReadable b); simpl;
    [destruct (downloadDismissedSession b) as [v|];
     [destruct (v =? "1")%string|]|]; simpl;
    repeat split; auto; discriminate.
Qed.

Ltac frame := solve [repeat split; reflexivity].

Lemma dispatch_browser_frame (w : World) (e : Event) :
  userAgent (browser (dispatch w e)) = userAgent (browser w)
  /\ localReadable (browser (dispatch w e)) = localReadable (browser w)
  /\ reminderDismissed (browser (dispatch w e))
     = reminderDismissed (browser w).
Proof.
  destruct e as [ev| | | | | | |k now o|k o]; simpl.
  - frame.
  - unfold tryLocal. destruct (localWritable (browser w)); frame.
  - destruct (visible (ui w) && negb (installing (ui w)))%bool;
      [|frame].
    unfold downloadApk.
    destruct (negb (isAndroid (userAgent (browser w))));
      [destruct (alertWorks (browser w))
      |destruct (fetchWorks (browser w))]; frame.
  - destruct (bipEvt (ui w)) as [ev|]; [|frame].
    destruct (visible (ui w) && negb (installing (ui w)))%bool;
      [|frame].
    unfold installPWA. destruct (bipEvt (ui w)) as [ev'|];
      [destruct (hasPrompt ev')|]; frame.
  - destruct (visible (ui w) && negb (installing (ui w)))%bool;
      [|frame].
    unfold dismiss, trySession. simpl.
    destruct (sessionWritable (browser w)); frame.
  - destruct (visible (ui w) && showInstallHelp (ui w))%bool; frame.
  - destruct (visible (ui w) && showInstallHelp (ui w))%bool; frame.
  - destruct (nth_error (inFlight w) k) as [[|]|]; try frame.
    destruct o as [|s a]; [frame|].
    destruct s, a; try frame.
    simpl. unfold tryLocal. simpl.
    destruct (localWritable (browser w)); frame.
  - destruct (nth_error (inFlight w) k) as [[|]|]; try frame.
    destruct o as [|[]]; frame.
Qed.

(** The help box is never there before a download has been started. *)
Lemma dispatch_help (w : World) (e : Event) :
  (showInstallHelp (ui w) = true -> navigations w <> []) ->
  showInstallHelp (ui (dispatch w e)) = true ->
  navigations (dispatch w e) <> [].
Proof.
  intros H.
  assert (G : forall l : list string, l ++ ["/api/app/download"] <> []).
  { intros l E. apply app_eq_nil in E as [_ E]. discriminate. }
  destruct e as [ev| | | | | | |k now o|k o]; simpl; try exact H.
  - destruct (visible (ui w) && negb (installing (ui w)))%bool;
      [|exact H].
    unfold downloadApk.
    destruct (negb (isAndroid (userAgent (browser w))));
      [destruct (alertWorks (browser w))
      |destruct (fetchWorks (browser w))]; exact H.
  - destruct (bipEvt (ui w)) as [ev|]; [|exact H].
    destruct (visible (ui w) && negb (installing (ui w)))%bool;
      [|exact H].
    unfold installPWA. destruct (bipEvt (ui w)) as [ev'|];
      [destruct (hasPrompt ev')|]; exact H.
  - destruct (visible (ui w) && negb (installing (ui w)))%bool;
      [|exact H].
    unfold dismiss, trySession. simpl.
    destruct (sessionWritable (browser w)); exact H.
  - destruct (visible (ui w) && showInstallHelp (ui w))%bool;
      [discriminate|exact H].
  - destruct (visible (ui w) && showInstallHelp (ui w))%bool;
      [intros _; apply G|exact H].
  - destruct (nth_error (inFlight w) k) as [[|]|]; try exact H.
    destruct o as [|s a]; [exact H|].
    destruct s, a; try exact H. intros _. apply G.
  - destruct (nth_error (inFlight w) k) as [[|]|]; try exact H.
    destruct o as [|[]]; exact H.
Qed.

Lemma dispatch_not_android (w : World) (e : Event) :
  isAndroid (userAgent (browser w)) = false ->
  filter isDownloadAwait (inFlight w) = [] ->
  showInstallHelp (ui w) = false ->
  apkDownloadAttempted (browser (dispatch w e))
  = apkDownloadAttempted (browser w)
  /\ filter isDownloadAwait (inFlight (dispatch w e)) = []
  /\ showInstallHelp (ui (dispatch w e)) = false
  /\ sent (dispatch w e) = sent w
  /\ navigations (dispatch w e) = navigations w.
Proof.
  intros A F Hh.
  assert (Same : apkDownloadAttempted (browser w)
                 = apkDownloadAttempted (browser w)
                 /\ filter isDownloadAwait (inFlight w) = []
                 /\ showInstallHelp (ui w) = false
                 /\ sent w = sent w /\ navigations w = navigations w)
    by (repeat split; assumption).
  destruct e as [ev| | | | | | |k now o|k o]; simpl.
  - exact Same.
  - unfold tryLocal. destruct (localWritable (browser w)); exact Same.
  - destruct (visible (ui w) && negb (installing (ui w)))%bool;
      [|exact Same].
    unfold downloadApk. rewrite A. simpl.
    destruct (alertWorks (browser w)); exact Same.
  - destruct (bipEvt (ui w)) as [ev|]; [|exact Same].
    destruct (visible (ui w) && negb (installing (ui w)))%bool;
      [|exact Same].
    unfold installPWA. destruct (bipEvt (ui w)) as [ev'|];
      [destruct (hasPrompt ev')|]; try exact Same.
    simpl. rewrite filter_app, F. repeat split. exact Hh.
  - destruct (visible (ui w) && negb (installing (ui w)))%bool;
      [|exact Same].
    unfold dismiss, trySession. simpl.
    destruct (sessionWritable (browser w)); exact Same.
  - rewrite Hh, andb_false_r. exact Same.
  - rewrite Hh, andb_false_r. exact Same.
  - destruct (nth_error (inFlight w) k) as [[|]|] eqn:Hk; try exact Same.
    pose proof (filter_nil_nth_error _ _ _ _ F Hk). discriminate.
  - destruct (nth_error (inFlight w) k) as [[|]|] eqn:Hk; try exact Same.
    assert (F' : filter isDownloadAwait (remove_nth k (inFlight w)) = []).
    { rewrite (filter_remove_nth_other _ k _ _ Hk eq_refl). exact F. }
    destruct o as [|[]]; repeat split; assumption.
Qed.

Lemma keeps_dispatch (b : Browser) (w : World) (e : Event) :
  keeps b w -> keeps b (dispatch w e).
Proof.
  intros (U & R & D & H & N).
  destruct (dispatch_browser_frame w e) as (U' & R' & D').
  split; [congruence|]. split; [congruence|]. split; [congruence|].
  split; [apply dispatch_help, H|].
  intros A. destruct (N A) as (N1 & N2 & N3 & N4 & N5).
  rewrite <- U in A.
  destruct (dispatch_not_android w e A N2 N3) as (M1 & M2 & M3 & M4 & M5).
  repeat split; congruence.
Qed.

Lemma keeps_run (b : Browser) (evs : list Event) (w : World) :
  keeps b w -> keeps b (run evs w).
Proof.
  revert w. induction evs as [|e evs IH]; intros w K; simpl; [exact K|].
  apply IH, keeps_dispatch, K.
Qed.

(** X13. A download of the APK is started in two places only: in the callback of
    an availability check that came back with [success] and [available]
    both truthy, and by the "Download again" link of the help box, which is
    only on screen after such a callback has started a download.  Both
    need a user agent that matches [/android/i]: on any other device no run
    of the banner ever fetches, starts a download, shows the help box or
    records an install attempt. *)
Theorem download_only_after_availability_check :
  forall (b : Browser) (evs : list Event) (e : Event),
    (navigations (dispatch (run evs (mounted b)) e)
     = navigations (run evs (mounted b))
     \/ (navigations (dispatch (run evs (mounted b)) e)
         = navigations (run evs (mounted b)) ++ ["/api/app/download"]
         /\ isAndroid (userAgent b) = true
         /\ ((exists k now,
                e = InfoSettled k now (Info true true)
                /\ nth_error (inFlight (run evs (mounted b))) k
                   = Some InDownloadApk)
             \/ (e = DownloadAgainClick
                 /\ showInstallHelp (ui (run evs (mounted b))) = true
                 /\ navigations (run evs (mounted b)) <> []))))
    /\ (isAndroid (userAgent b) = false ->
        sent (run evs (mounted b)) = []
        /\ navigations (run evs (mounted b)) = []
        /\ showInstallHelp (ui (run evs (mounted b))) = false
        /\ apkDownloadAttempted (browser (run evs (mounted b)))
           = apkDownloadAttempted b).
Proof.
  intros b evs e.
  pose proof (keeps_run b evs (mounted b) (keeps_mounted b)) as K.
  set (w := run evs (mounted b)) in *.
  destruct K as (_ & _ & _ & H & N).
  split; [|intros A; destruct (N A) as (H1 & _ & H2 & H3 & H4); auto].
  destruct e as [ev| | | | | | |k now o|k o]; simpl; try (left; reflexivity).
  - left. destruct (visible (ui w) && negb (installing (ui w)))%bool;
      [|reflexivity].
    unfold downloadApk.
    destruct (negb (isAndroid (userAgent (browser w))));
      [destruct (alertWorks (browser w))
      |destruct (fetchWorks (browser w))]; reflexivity.
  - left. destruct (bipEvt (ui w)) as [ev|]; [|reflexivity].
    destruct (visible (ui w) && negb (installing (ui w)))%bool;
      [|reflexivity].
    unfold installPWA. destruct (bipEvt (ui w)) as [ev'|];
      [destruct (hasPrompt ev')|]; reflexivity.
  - left. destruct (visible (ui w) && negb (installing (ui w)))%bool;
      reflexivity.
  - left. destruct (visible (ui w) && showInstallHelp (ui w))%bool;
      reflexivity.
  - destruct (visible (ui w) && showInstallHelp (ui w))%bool eqn:G;
      [|left; reflexivity].
    apply andb_true_iff in G as [_ G].
    right. split; [reflexivity|].
    destruct (isAndroid (userAgent b)) eqn:A.
    + split; [reflexivity|]. right. auto.
    + destruct (N eq_refl) as (_ & _ & Hh & _). congruence.
  - destruct (nth_error (inFlight w) k) as [[|]|] eqn:Hk;
      try (left; reflexivity).
    destruct o as [|s a]; [left; reflexivity|].
    destruct s, a; try (left; reflexivity).
    right. split; [reflexivity|].
    destruct (isAndroid (userAgent b)) eqn:A.
    + split; [reflexivity|]. left. exists k, now. auto.
    + destruct (N eq_refl) as (_ & F & _).
      pose proof (filter_nil_nth_error _ _ _ _ F Hk). discriminate.
  - left. destruct (nth_error (inFlight w) k) as [[|]|];
      try reflexivity.
    destruct o as [|[]]; reflexivity.
Qed.

(** *** The [installing] flag *)






(** *** The download banner and the reminder *)

Lemma foldCase_keepsAndroid : keepsAndroid foldCase.
Proof. intros ua H. now rewrite foldCase_idempotent. Qed.

(** So does a lower-casing that reaches beyond ASCII. *)
Lemma lowerWithKelvin_keepsAndroid :
  keepsAndroid ReminderScenarios.lowerWithKelvin.
Proof.
  intros ua H.
  apply (ReminderFacts.occursIn_lowerWithKelvin "ndroid" "a"
           (String.length ua));
    [|reflexivity|lia|exact H].
  intros c Hc. simpl in Hc.
  repeat (destruct Hc as [<-|Hc]; [reflexivity|]). destruct Hc.
Qed.

Lemma isAndroid_isMobile (toLowerCase : string -> string) (ua : string) :
  keepsAndroid toLowerCase ->
  isAndroid ua = true -> Reminder.isMobile toLowerCase ua = true.
Proof.
  intros K. unfold isAndroid, Reminder.isMobile, testAnyIgnoreCase.
  cbn [existsb]. rewrite orb_false_r. intros A.
  now rewrite (K ua A).
Qed.

Lemma reminder_reads (toLowerCase : string -> string) (now : Z)
    (b b' : Browser) :
  userAgent b' = userAgent b ->
  localReadable b' = localReadable b ->
  reminderDismissed b' = reminderDismissed b ->
  apkDownloadAttempted b' = apkDownloadAttempted b ->
  Reminder.ui (Reminder.mounted toLowerCase now b')
  = Reminder.ui (Reminder.mounted toLowerCase now b).
Proof.
  intros U R D A.
  unfold Reminder.mounted, Reminder.mountEffect, Reminder.checkInstallAttempt.
  simpl. rewrite U, R, D, A.
  destruct (Reminder.isMobile toLowerCase (userAgent b)); [reflexivity|].
  destruct (localReadable b); [|reflexivity]. simpl.
  destruct (reminderDismissed b) as [[|[t|]]|]; try reflexivity;
    try (destruct (hoursSinceBelow now t 24); [reflexivity|]);
    destruct (apkDownloadAttempted b) as [[|[t'|]]|]; try reflexivity;
    destruct (hoursSinceBelow now t' 168); reflexivity.
Qed.

(** X15. Nothing the download banner does changes whether the reminder shows in
    the same browser: for every run of the banner, the reminder mounted
    afterwards is on screen exactly if it would have been before.  (The
    banner records an install attempt only on a user agent that matches
    [/android/i], and on such a user agent the reminder returns at its
    mobile check.)  All that is asked of the platform's [toLowerCase] is
    that it keeps an occurrence of [android], in whatever case, in the
    string. *)
Theorem download_banner_never_triggers_reminder :
  forall (toLowerCase : string -> string) (b : Browser) (evs : list Event)
         (now : Z),
    keepsAndroid toLowerCase ->
    Reminder.rendered
      (Reminder.ui
         (Reminder.mounted toLowerCase now (browser (run evs (mounted b)))))
    = Reminder.rendered (Reminder.ui (Reminder.mounted toLowerCase now b))
    /\ (isAndroid (userAgent b) = true ->
        Reminder.rendered
          (Reminder.ui
             (Reminder.mounted toLowerCase now
                (browser (run evs (mounted b)))))
        = false).
Proof.
  intros toLowerCase b evs now K.
  destruct (keeps_run b evs (mounted b) (keeps_mounted b))
    as (U & R & D & _ & N).
  set (b' := browser (run evs (mounted b))) in *.
  assert (M : isAndroid (userAgent b) = true ->
              forall b0, userAgent b0 = userAgent b ->
              Reminder.ui (Reminder.mounted toLowerCase now b0)
              = Reminder.initialState).
  { intros A b0 U0. apply (isAndroid_isMobile toLowerCase _ K) in A.
    unfold Reminder.mounted, Reminder.mountEffect. simpl.
    now rewrite U0, A. }
  split.
  - destruct (isAndroid (userAgent b)) eqn:A.
    + now rewrite (M eq_refl b' U), (M eq_refl b eq_refl).
    + destruct (N eq_refl) as (N1 & _).
      now rewrite (reminder_reads toLowerCase now b b' U R D N1).
  - intros A. now rewrite (M A b' U).
Qed.

(** On an Android phone the download is started and the install attempt
    recorded; the reminder mounted in that browser a second later is not on
    screen.  (The user agent of the example is ASCII, where lower-casing is
    [foldCase].) *)
Lemma download_on_android_leaves_reminder_hidden :
  apkDownloadAttempted (browser (run startedDownload (mounted androidPhone)))
  <> None
  /\ Reminder.rendered
       (Reminder.ui
          (Reminder.mounted foldCase 6000
             (browser (run startedDownload (mounted androidPhone)))))
     = false.
Proof.
  split; [vm_compute; discriminate|].
  apply (download_banner_never_triggers_reminder foldCase androidPhone
           startedDownload 6000 foldCase_keepsAndroid).
  vm_compute. reflexivity.
Defined.

End PwaFacts.
